(** * The WordPress REST API client of wp-remix

    A shallow embedding of [web/remix-app/app/lib/wordpress-api.ts]: the
    class [WordPressApiClient] with its private [request] method (cache,
    abort timer, retry loop with exponential backoff) and its public
    operations [getPosts], [getPost], [getPages], [getPage],
    [getCategories], [search], [clearCache] and [healthCheck].

    JavaScript's effects are made explicit.  A computation is a function
    from a [State] (the clock read by [Date.now()], the log of [fetch]
    invocations, and the [cache] map of the client instance) to an
    [Outcome] (a returned value or a thrown error) and a new state.  The
    backend is a parameter: a function that says, for the n-th [fetch]
    invocation, after how many milliseconds the promise settles and how. *)

From stdpp Require Import gmap strings list pretty.
From Stdlib Require Import ZArith String Ascii Lia.

Set Warnings "-register-all".
Open Scope string_scope.
Open Scope Z_scope.

(** ** JavaScript values *)

(** Parsed JSON, the [any] that [response.json()] resolves to.  Numbers are
    modelled by the integers; an object is the list of its properties. *)
Inductive Json : Type :=
| JNull
| JBool (b : bool)
| JNum (n : Z)
| JStr (s : string)
| JArr (items : list Json)
| JObj (props : list (string * Json)).

(** A JavaScript number that may be [NaN] (the result of [parseInt]). *)
Inductive JsNumber : Type :=
| Num (n : Z)
| NaN.

(** [String(n)] for an integer number. *)
Definition Z_toString (n : Z) : string := pretty n.

(** [Boolean(v)]: truthiness of a JSON value. *)
Definition truthy (v : Json) : bool :=
  match v with
  | JNull => false
  | JBool b => b
  | JNum n => negb (n =? 0)
  | JStr s => negb (s =? "")%string
  | JArr _ => true
  | JObj _ => true
  end.

Definition join (sep : string) (l : list string) : string :=
  match l with
  | [] => ""
  | x :: rest => fold_left (fun acc y => acc +:+ sep +:+ y) rest x
  end.

(** [String(v)], as [new Error(message)] applies it to its argument:
    [Array.prototype.join] prints [null] elements as the empty string. *)
Fixpoint js_String (v : Json) : string :=
  match v with
  | JNull => "null"
  | JBool true => "true"
  | JBool false => "false"
  | JNum n => Z_toString n
  | JStr s => s
  | JArr items =>
      join "," (map (fun x => match x with JNull => "" | _ => js_String x end) items)
  | JObj _ => "[object Object]"
  end.

Fixpoint assoc (k : string) (l : list (string * Json)) : option Json :=
  match l with
  | [] => None
  | (k', v) :: rest => if (k =? k')%string then Some v else assoc k rest
  end.

(** ** Errors and outcomes *)

(** The values the client can throw: its own [WordPressApiError]
    (message, optional status, optional code) and the runtime's errors, a
    [TypeError] (a failed [fetch], a property read on [null]), a
    [SyntaxError] (a body that is not JSON) and a [DOMException] (an
    aborted [fetch]). *)
Inductive JsError : Type :=
| WordPressApiError (message : string) (status : option Z) (code : option Json)
| TypeError (message : string)
| SyntaxError (message : string)
| DOMException (name message : string).

Definition error_message (e : JsError) : string :=
  match e with
  | WordPressApiError m _ _ => m
  | TypeError m => m
  | SyntaxError m => m
  | DOMException _ m => m
  end.

(** [error instanceof WordPressApiError] *)
Definition is_WordPressApiError (e : JsError) : bool :=
  match e with
  | WordPressApiError _ _ _ => true
  | _ => false
  end.

Definition error_status (e : JsError) : option Z :=
  match e with
  | WordPressApiError _ st _ => st
  | _ => None
  end.

Inductive Outcome (A : Type) : Type :=
| Returned (a : A)
| Thrown (e : JsError).
Arguments Returned {A} a.
Arguments Thrown {A} e.

Definition is_thrown {A} (o : Outcome A) : bool :=
  match o with
  | Thrown _ => true
  | Returned _ => false
  end.

(** [v.name] for a value [v] of type [any]: reading a property of [null]
    throws, an object yields the property or [undefined], and the other
    JSON values have none of the properties read here. *)
Definition get_prop (v : Json) (name : string) : Outcome (option Json) :=
  match v with
  | JNull =>
      Thrown (TypeError ("Cannot read properties of null (reading '" +:+ name +:+ "')"))
  | JObj props => Returned (assoc name props)
  | _ => Returned None
  end.

(** ** HTTP *)

Record Response : Type := mkResponse {
  status : Z;
  statusText : string;
  headers : list (string * string);
  (** the body as [response.json()] parses it; [None] when it is not JSON *)
  body : option Json
}.

(** [response.ok] *)
Definition ok (r : Response) : bool := (200 <=? status r) && (status r <=? 299).

(** How a [fetch] promise settles, [latency] milliseconds after the call:
    with a response, or rejected with a [TypeError] (connection refused,
    DNS failure, ...). *)
Inductive FetchReply : Type :=
| Responds (latency : N) (r : Response)
| Fails (latency : N) (message : string).

Definition latency_of (r : FetchReply) : Z :=
  match r with
  | Responds l _ => Z.of_N l
  | Fails l _ => Z.of_N l
  end.

(** One invocation of [fetch]: its arguments, the time of the call, the
    time its promise settled, and how it settled. *)
Record FetchCall : Type := mkFetchCall {
  fc_url : string;
  fc_method : option string;
  fc_headers : list (string * string);
  fc_started : Z;
  fc_settled : Z;
  fc_result : Outcome Response
}.

(** The backend answers the n-th invocation (n counted from 0) to a URL. *)
Definition Backend : Type := nat -> string -> FetchReply.

(** ** The client's state *)

Record CacheEntry : Type := mkCacheEntry {
  data : Json;
  timestamp : Z;
  ttl : Z
}.

Record State : Type := mkState {
  (** [Date.now()], in milliseconds *)
  clock : Z;
  (** the invocations of [fetch] so far, the latest first *)
  calls : list FetchCall;
  (** [this.cache] *)
  cache : gmap string CacheEntry
}.

Definition M (A : Type) : Type := State -> Outcome A * State.

Definition ret {A} (a : A) : M A := fun s => (Returned a, s).
Definition throw {A} (e : JsError) : M A := fun s => (Thrown e, s).
Definition bind {A B} (m : M A) (k : A -> M B) : M B :=
  fun s =>
    match m s with
    | (Returned a, s') => k a s'
    | (Thrown e, s') => (Thrown e, s')
    end.

Notation "x <- m ;; k" := (bind m (fun x => k))
  (at level 100, m at next level, right associativity).

Definition network_calls (s : State) : nat := List.length (calls s).

(** Time passing between two calls of the client. *)
Definition advance (d : Z) (s : State) : State :=
  mkState (clock s + d) (calls s) (cache s).

(** ** Abort signals *)

(** The state of an [AbortSignal] and of the timer that aborts it:
    [deadline] is the time at which the pending timer fires, [None] when no
    timer is pending (never armed, cleared, or already fired). *)
Record Signal : Type := mkSignal {
  aborted : bool;
  deadline : option Z;
  reason : JsError
}.

Definition AbortError : JsError :=
  DOMException "AbortError" "This operation was aborted".
Definition TimeoutError : JsError :=
  DOMException "TimeoutError" "The operation was aborted due to timeout".

(** No [signal] option. *)
Definition no_signal : Signal := mkSignal false None AbortError.

(** [new AbortController()] followed by
    [setTimeout(() => controller.abort(), ms)] at time [now]. *)
Definition controller_with_timer (now ms : Z) : Signal :=
  mkSignal false (Some (now + ms)) AbortError.

(** [AbortSignal.timeout(ms)] at time [now]. *)
Definition AbortSignal_timeout (now ms : Z) : Signal :=
  mkSignal false (Some (now + ms)) TimeoutError.

(** [clearTimeout(timeoutId)]: a timer that already fired stays fired. *)
Definition clearTimeout (sg : Signal) : Signal :=
  mkSignal (aborted sg) None (reason sg).

(** The timer fires once the clock has reached its deadline. *)
Definition tick (now : Z) (sg : Signal) : Signal :=
  match deadline sg with
  | Some d => if d <=? now then mkSignal true None (reason sg) else sg
  | None => sg
  end.

(** [await fetch(url, { method, headers, signal })].  Every invocation is
    logged.  With an already aborted signal the promise rejects at once and
    the backend is not contacted; otherwise the promise settles as the
    backend says, unless the signal's timer fires first (a timer due at the
    very millisecond the reply arrives wins). *)
Definition fetch (be : Backend) (url : string) (method : option string)
    (hdrs : list (string * string)) (sg : Signal) (s : State)
  : Outcome Response * Signal * State :=
  let settle t (o : Outcome Response) (sg' : Signal) :=
    (o, sg', mkState t (mkFetchCall url method hdrs (clock s) t o :: calls s) (cache s)) in
  if aborted sg then settle (clock s) (Thrown (reason sg)) sg
  else
    let reply := be (List.length (calls s)) url in
    let t := clock s + latency_of reply in
    let sg' := tick t sg in
    if aborted sg' then
      settle (Z.max (clock s) (default t (deadline sg))) (Thrown (reason sg)) sg'
    else
      match reply with
      | Responds _ r => settle t (Returned r) sg'
      | Fails _ msg => settle t (Thrown (TypeError msg)) sg'
      end.

(** A signal that is not aborted and whose timer, if any, is due after
    time [t]: a reply that arrives at [t] gets through. *)
Definition in_time (sg : Signal) (t : Z) : Prop :=
  aborted sg = false /\
  match deadline sg with
  | Some d => t < d
  | None => True
  end.

(** How the promise settles when nothing aborts it. *)
Definition settled_as (reply : FetchReply) : Outcome Response :=
  match reply with
  | Responds _ r => Returned r
  | Fails _ msg => Thrown (TypeError msg)
  end.

(** [fetch] without a [signal]. *)
Definition fetch_plain (be : Backend) (url : string) (method : option string)
    (hdrs : list (string * string)) : M Response :=
  fun s => let '(o, _, s') := fetch be url method hdrs no_signal s in (o, s').

(** [await response.json()] *)
Definition response_json (r : Response) : Outcome Json :=
  match body r with
  | Some v => Returned v
  | None => Thrown (SyntaxError "Unexpected token in JSON")
  end.

(** [await new Promise(resolve => setTimeout(resolve, ms))]: the clock
    moves on, and a pending abort timer may fire meanwhile. *)
Definition sleep (ms : Z) (sg : Signal) (s : State) : Signal * State :=
  let t := clock s + ms in
  (tick t sg, mkState t (calls s) (cache s)).

(** ** Configuration *)

(** The constructor's argument: only [baseUrl] is required. *)
Record WordPressConfig : Type := mkWordPressConfig {
  cfg_baseUrl : string;
  cfg_timeout : option Z;
  cfg_cache : option bool;
  cfg_retries : option Z
}.

(** [Required<WordPressConfig>], the type of [this.config]. *)
Module Config.
Record t : Type := mk {
  baseUrl : string;
  timeout : Z;
  cache : bool;
  retries : Z
}.
End Config.

(** [{ timeout: 10000, cache: true, retries: 3, ...config }] *)
Definition constructor (config : WordPressConfig) : Config.t :=
  Config.mk (cfg_baseUrl config)
            (default 10000 (cfg_timeout config))
            (default true (cfg_cache config))
            (default 3 (cfg_retries config)).

(** The part of [RequestInit] that [request] reads.  Its two callers pass
    no options at all. *)
Record RequestInit : Type := mkRequestInit {
  method : option string
}.

Definition no_options : RequestInit := mkRequestInit None.

Definition dquote : string := String (ascii_of_nat 34) EmptyString.

(** [JSON.stringify(options)] *)
Definition JSON_stringify (options : RequestInit) : string :=
  match method options with
  | None => "{}"
  | Some m => "{" +:+ dquote +:+ "method" +:+ dquote +:+ ":" +:+ dquote +:+ m +:+ dquote +:+ "}"
  end.

(** [options.method !== 'POST'] *)
Definition not_POST (options : RequestInit) : bool :=
  match method options with
  | Some m => negb (m =? "POST")%string
  | None => true
  end.

(** [5 * 60 * 1000], the default of [cacheTtl]. *)
Definition default_cacheTtl : Z := 5 * 60 * 1000.

Definition api_root : string := "/wp-json/wp/v2".

(** [error instanceof WordPressApiError && error.status && error.status < 500] *)
Definition is_client_error (error : JsError) : bool :=
  is_WordPressApiError error &&
  match error_status error with
  | Some st => negb (st =? 0) && (st <? 500)
  | None => false
  end.

(** [a || b] where [a] may be [undefined] *)
Definition or_else (a : option Json) (b : string) : string :=
  match a with
  | Some v => if truthy v then js_String v else b
  | None => b
  end.

(** What the [try] block throws for a response that is not [ok]: the
    [WordPressApiError] built from the error body, where a body that is not
    JSON counts as [{}]; reading [errorData.message] throws instead when
    the body is the JSON literal [null]. *)
Definition error_of_response (response : Response) : JsError :=
  (* response.json().catch(() => ({})) *)
  let errorData := default (JObj []) (body response) in
  match get_prop errorData "message", get_prop errorData "code" with
  | Returned message, Returned code =>
      WordPressApiError
        (or_else message
           ("HTTP " +:+ Z_toString (status response) +:+ ": " +:+ statusText response))
        (Some (status response))
        code
  | Thrown e, _ => e
  | _, Thrown e => e
  end.

Section Client.
Variable be : Backend.
Variable config : Config.t.

Definition cache_in_use (options : RequestInit) : bool :=
  Config.cache config && not_POST options.

(** [cached && Date.now() - cached.timestamp < cached.ttl] *)
Definition cache_lookup (cacheKey : string) (s : State) : option Json :=
  match cache s !! cacheKey with
  | Some cached =>
      if clock s - timestamp cached <? ttl cached then Some (data cached) else None
  | None => None
  end.

(** The [try] block of one iteration of the retry loop. *)
Definition try_block (url cacheKey : string) (options : RequestInit)
    (cacheTtl : Z) (sg : Signal) (s : State) : Outcome Json * Signal * State :=
  let '(fetched, sg1, s1) :=
    fetch be url (method options)
          [("Content-Type", "application/json"); ("Accept", "application/json")]
          sg s in
  match fetched with
  | Thrown e => (Thrown e, sg1, s1)
  | Returned response =>
      let sg2 := clearTimeout sg1 in
      if negb (ok response) then (Thrown (error_of_response response), sg2, s1)
      else
        match response_json response with
        | Thrown e => (Thrown e, sg2, s1)
        | Returned d =>
            let s2 :=
              if cache_in_use options
              then mkState (clock s1) (calls s1)
                           (<[cacheKey := mkCacheEntry d (clock s1) cacheTtl]> (cache s1))
              else s1 in
            (Returned d, sg2, s2)
        end
  end.

(** [for (let attempt = 0; attempt < this.config.retries; attempt++)]
    followed by the statements after the loop.  [remaining] is the number
    of iterations still to run, [retries - attempt]. *)
Fixpoint retry_loop (remaining : nat) (attempt : Z) (url cacheKey : string)
    (options : RequestInit) (cacheTtl : Z) (lastError : option JsError)
    (sg : Signal) (s : State) : Outcome Json * State :=
  match remaining with
  | O =>
      (* clearTimeout(timeoutId);
         throw lastError || new WordPressApiError('Request failed after retries') *)
      (Thrown (default (WordPressApiError "Request failed after retries" None None)
                       lastError), s)
  | S remaining' =>
      match try_block url cacheKey options cacheTtl sg s with
      | (Returned d, _, s1) => (Returned d, s1)
      | (Thrown error, sg1, s1) =>
          if is_client_error error then (Thrown error, s1)
          else
            let '(sg2, s2) :=
              if attempt <? Config.retries config - 1
              then sleep (2 ^ attempt * 1000) sg1 s1
              else (sg1, s1) in
            retry_loop remaining' (attempt + 1) url cacheKey options cacheTtl
                       (Some error) sg2 s2
      end
  end.

(** [private async request<T>(endpoint, options = {}, cacheTtl = 5 * 60 * 1000)] *)
Definition request (endpoint : string) (options : RequestInit) (cacheTtl : Z)
  : M Json :=
  fun s =>
    let url := Config.baseUrl config +:+ api_root +:+ endpoint in
    let cacheKey := url +:+ ":" +:+ JSON_stringify options in
    match (if cache_in_use options then cache_lookup cacheKey s else None) with
    | Some d => (Returned d, s)
    | None =>
        let sg := controller_with_timer (clock s) (Config.timeout config) in
        retry_loop (Z.to_nat (Config.retries config)) 0 url cacheKey options
                   cacheTtl None sg s
    end.

End Client.

(** ** Query strings, headers and [parseInt] *)

(** [URLSearchParams]: the list of name-value pairs, in insertion order. *)
Definition URLSearchParams : Type := list (string * string).

Definition append (name value : string) (sp : URLSearchParams) : URLSearchParams :=
  (sp ++ [(name, value)])%list.

Definition hex_digit (n : N) : ascii :=
  match String.get (N.to_nat n) "0123456789ABCDEF" with
  | Some c => c
  | None => "0"%char
  end.

(** The bytes that the application/x-www-form-urlencoded serializer leaves
    as they are: ASCII letters and digits, [*], [-], [.] and [_]. *)
Definition form_safe (c : ascii) : bool :=
  let n := Z.of_N (N_of_ascii c) in
  ((48 <=? n) && (n <=? 57)) || ((65 <=? n) && (n <=? 90)) ||
  ((97 <=? n) && (n <=? 122)) ||
  (n =? 42) || (n =? 45) || (n =? 46) || (n =? 95).

Definition encode_byte (c : ascii) : string :=
  if (c =? " ")%char then "+"
  else if form_safe c then String c EmptyString
  else
    let n := N_of_ascii c in
    String "%" (String (hex_digit (n / 16)) (String (hex_digit (n mod 16)) EmptyString)).

Fixpoint form_encode (s : string) : string :=
  match s with
  | EmptyString => EmptyString
  | String c rest => encode_byte c +:+ form_encode rest
  end.

(** [searchParams.toString()] *)
Definition URLSearchParams_toString (sp : URLSearchParams) : string :=
  join "&" (map (fun '(k, v) => form_encode k +:+ "=" +:+ form_encode v) sp).

Definition lower_ascii (c : ascii) : ascii :=
  let n := N_of_ascii c in
  if ((65 <=? n) && (n <=? 90))%N then ascii_of_N (n + 32) else c.

Fixpoint lower (s : string) : string :=
  match s with
  | EmptyString => EmptyString
  | String c rest => String (lower_ascii c) (lower rest)
  end.

(** [headers.get(name)]: names compare without case, the values of a
    repeated header are joined with a comma and a space, and a header that
    is absent gives [null]. *)
Definition headers_get (hs : list (string * string)) (name : string) : option string :=
  match filter (fun '(k, _) => lower k = lower name) hs with
  | [] => None
  | found => Some (join ", " (map snd found))
  end.

(** [value || fallback] for a string that may be [null] *)
Definition string_or (value : option string) (fallback : string) : string :=
  match value with
  | Some v => if (v =? "")%string then fallback else v
  | None => fallback
  end.

(** [value || fallback] for a number that may be [undefined] *)
Definition number_or (value : option Z) (fallback : Z) : Z :=
  match value with
  | Some n => if n =? 0 then fallback else n
  | None => fallback
  end.

Definition is_space (c : ascii) : bool :=
  let n := Z.of_N (N_of_ascii c) in
  ((9 <=? n) && (n <=? 13)) || (n =? 32) || (n =? 160).

Fixpoint skip_spaces (s : string) : string :=
  match s with
  | String c rest => if is_space c then skip_spaces rest else s
  | EmptyString => EmptyString
  end.

Definition digit_value (radix : Z) (c : ascii) : option Z :=
  let n := Z.of_N (N_of_ascii c) in
  let v :=
    if (48 <=? n) && (n <=? 57) then Some (n - 48)
    else if (97 <=? n) && (n <=? 122) then Some (n - 87)
    else if (65 <=? n) && (n <=? 90) then Some (n - 55)
    else None in
  match v with
  | Some d => if d <? radix then Some d else None
  | None => None
  end.

(** The value of the longest prefix of digits, [None] when it is empty. *)
Fixpoint digits (radix : Z) (acc : option Z) (s : string) : option Z :=
  match s with
  | String c rest =>
      match digit_value radix c with
      | Some d => digits radix (Some (default 0 acc * radix + d)) rest
      | None => acc
      end
  | EmptyString => acc
  end.

(** [parseInt(s)] without a radix: leading white space, an optional sign,
    an optional [0x] prefix, then the longest run of digits. *)
Definition parseInt (s : string) : JsNumber :=
  let s1 := skip_spaces s in
  let '(sign, s2) :=
    match s1 with
    | String "-" rest => (-1, rest)
    | String "+" rest => (1, rest)
    | _ => (1, s1)
    end in
  let '(radix, s3) :=
    match s2 with
    | String "0" (String "x" rest) => (16, rest)
    | String "0" (String "X" rest) => (16, rest)
    | _ => (10, s2)
    end in
  match digits radix None s3 with
  | Some n => Num (sign * n)
  | None => NaN
  end.

(** ** Parameters and results of the public operations *)

Inductive Orderby : Type := By_date | By_title | By_menu_order.
Inductive CategoryOrderby : Type := By_name | By_slug | By_count.
Inductive Order : Type := Asc | Desc.
Inductive PostStatus : Type := Publish | Draft | Private.
Inductive SearchType : Type := Type_post | Type_page | Type_any.

Definition Orderby_toString (o : Orderby) : string :=
  match o with By_date => "date" | By_title => "title" | By_menu_order => "menu_order" end.
Definition CategoryOrderby_toString (o : CategoryOrderby) : string :=
  match o with By_name => "name" | By_slug => "slug" | By_count => "count" end.
Definition Order_toString (o : Order) : string :=
  match o with Asc => "asc" | Desc => "desc" end.
Definition PostStatus_toString (o : PostStatus) : string :=
  match o with Publish => "publish" | Draft => "draft" | Private => "private" end.
Definition bool_toString (b : bool) : string := if b then "true" else "false".

(** An optional property is [None] when it is [undefined]. *)
Module PostsParams.
Record t : Type := mk {
  page : option Z;
  perPage : option Z;
  categories : option string;
  tags : option string;
  search : option string;
  orderby : option Orderby;
  order : option Order;
  status : option PostStatus
}.
(** [{}] *)
Definition empty : t := mk None None None None None None None None.
End PostsParams.

Module PagesParams.
Record t : Type := mk {
  page : option Z;
  perPage : option Z;
  search : option string;
  parent : option Z;
  orderby : option Orderby;
  order : option Order;
  status : option PostStatus
}.
Definition empty : t := mk None None None None None None None.
End PagesParams.

Module CategoriesParams.
Record t : Type := mk {
  page : option Z;
  perPage : option Z;
  search : option string;
  orderby : option CategoryOrderby;
  order : option Order;
  hide_empty : option bool
}.
Definition empty : t := mk None None None None None None.
End CategoriesParams.

Module SearchParams.
Record t : Type := mk {
  type : option SearchType;
  page : option Z;
  perPage : option Z
}.
Definition empty : t := mk None None None.
End SearchParams.

(** [WordPressApiResponse<T>] *)
Module WordPressApiResponse.
Record t : Type := mk {
  data : Json;
  total : JsNumber;
  totalPages : JsNumber;
  page : Z;
  perPage : Z
}.
End WordPressApiResponse.

Inductive Health : Type := healthy | unhealthy.

Record HealthStatus : Type := mkHealthStatus {
  health : Health;
  health_message : string
}.

(** [string | number] *)
Inductive Identifier : Type :=
| IdNumber (n : Z)
| IdString (s : string).

(** [if (v) searchParams.append(name, v.toString())] for a number *)
Definition append_number (name : string) (v : option Z) (sp : URLSearchParams)
  : URLSearchParams :=
  match v with
  | Some n => if n =? 0 then sp else append name (Z_toString n) sp
  | None => sp
  end.

(** [if (v) searchParams.append(name, v)] for a string *)
Definition append_string (name : string) (v : option string) (sp : URLSearchParams)
  : URLSearchParams :=
  match v with
  | Some x => if (x =? "")%string then sp else append name x sp
  | None => sp
  end.

(** [if (v !== undefined) searchParams.append(name, v.toString())] *)
Definition append_defined (name : string) (v : option string) (sp : URLSearchParams)
  : URLSearchParams :=
  match v with
  | Some x => append name x sp
  | None => sp
  end.

(** [`${path}${queryString ? `?${queryString}` : ''}`] *)
Definition with_query (path queryString : string) : string :=
  if (queryString =? "")%string then path else path +:+ "?" +:+ queryString.

(** ** The public operations *)

Definition embed_posts : string := "author,wp:featuredmedia,wp:term".
Definition embed_pages : string := "author,wp:featuredmedia".

(** The search parameters [getPosts] builds from its argument. *)
Definition getPosts_searchParams (params : PostsParams.t) : URLSearchParams :=
  let sp := [] in
  let sp := append_number "page" (PostsParams.page params) sp in
  let sp := append_number "per_page" (PostsParams.perPage params) sp in
  let sp := append_string "categories" (PostsParams.categories params) sp in
  let sp := append_string "tags" (PostsParams.tags params) sp in
  let sp := append_string "search" (PostsParams.search params) sp in
  let sp := append_string "orderby" (Orderby_toString <$> PostsParams.orderby params) sp in
  let sp := append_string "order" (Order_toString <$> PostsParams.order params) sp in
  let sp := append_string "status" (PostStatus_toString <$> PostsParams.status params) sp in
  (* Always embed author, featured media, and categories *)
  append "_embed" embed_posts sp.

Definition getPosts_queryString (params : PostsParams.t) : string :=
  URLSearchParams_toString (getPosts_searchParams params).

Definition getPages_searchParams (params : PagesParams.t) : URLSearchParams :=
  let sp := [] in
  let sp := append_number "page" (PagesParams.page params) sp in
  let sp := append_number "per_page" (PagesParams.perPage params) sp in
  let sp := append_string "search" (PagesParams.search params) sp in
  let sp := append_defined "parent" (Z_toString <$> PagesParams.parent params) sp in
  let sp := append_string "orderby" (Orderby_toString <$> PagesParams.orderby params) sp in
  let sp := append_string "order" (Order_toString <$> PagesParams.order params) sp in
  let sp := append_string "status" (PostStatus_toString <$> PagesParams.status params) sp in
  append "_embed" embed_pages sp.

Definition getCategories_searchParams (params : CategoriesParams.t) : URLSearchParams :=
  let sp := [] in
  let sp := append_number "page" (CategoriesParams.page params) sp in
  let sp := append_number "per_page" (CategoriesParams.perPage params) sp in
  let sp := append_string "search" (CategoriesParams.search params) sp in
  let sp := append_string "orderby"
              (CategoryOrderby_toString <$> CategoriesParams.orderby params) sp in
  let sp := append_string "order" (Order_toString <$> CategoriesParams.order params) sp in
  append_defined "hide_empty" (bool_toString <$> CategoriesParams.hide_empty params) sp.

Definition search_searchParams (query : string) (params : SearchParams.t)
  : URLSearchParams :=
  let sp := append "search" query [] in
  let sp := append_number "page" (SearchParams.page params) sp in
  append_number "per_page" (SearchParams.perPage params) sp.

Section Operations.
Variable be : Backend.
Variable config : Config.t.

(** The statements that [getPosts], [getPages], [getCategories] and
    [search] share, from their call of [fetch] to their [return]:
    [failure] is the prefix of the message of the error they throw. *)
Definition fetch_list (failure url : string) (page perPage : option Z)
  : M WordPressApiResponse.t :=
  response <- fetch_plain be url (Some "GET") [("Accept", "application/json")] ;;
  if negb (ok response) then
    throw (WordPressApiError (failure +:+ statusText response)
                             (Some (status response)) None)
  else
    fun s =>
      match response_json response with
      | Thrown e => (Thrown e, s)
      | Returned items =>
          (* Get pagination info from headers *)
          let total :=
            parseInt (string_or (headers_get (headers response) "X-WP-Total") "0") in
          let totalPages :=
            parseInt (string_or (headers_get (headers response) "X-WP-TotalPages") "0") in
          let currentPage := number_or page 1 in
          let perPage := number_or perPage 10 in
          (Returned (WordPressApiResponse.mk items total totalPages currentPage perPage), s)
      end.

Definition getPosts_url (params : PostsParams.t) : string :=
  Config.baseUrl config +:+ api_root +:+
    with_query "/posts" (getPosts_queryString params).

Definition getPosts (params : PostsParams.t) : M WordPressApiResponse.t :=
  fetch_list "Failed to fetch posts: " (getPosts_url params)
             (PostsParams.page params) (PostsParams.perPage params).

Definition getPages (params : PagesParams.t) : M WordPressApiResponse.t :=
  let queryString := URLSearchParams_toString (getPages_searchParams params) in
  let endpoint := with_query "/pages" queryString in
  fetch_list "Failed to fetch pages: " (Config.baseUrl config +:+ api_root +:+ endpoint)
             (PagesParams.page params) (PagesParams.perPage params).

Definition getCategories (params : CategoriesParams.t) : M WordPressApiResponse.t :=
  let queryString := URLSearchParams_toString (getCategories_searchParams params) in
  let endpoint := with_query "/categories" queryString in
  fetch_list "Failed to fetch categories: "
             (Config.baseUrl config +:+ api_root +:+ endpoint)
             (CategoriesParams.page params) (CategoriesParams.perPage params).

Definition search (query : string) (params : SearchParams.t)
  : M WordPressApiResponse.t :=
  let type := default Type_any (SearchParams.type params) in
  (* For simplicity, we'll search posts if type is 'any' or specific type *)
  let endpoint := match type with Type_page => "/pages" | _ => "/posts" end in
  let queryString := URLSearchParams_toString (search_searchParams query params) in
  fetch_list "Search failed: "
             (Config.baseUrl config +:+ api_root +:+ endpoint +:+ "?" +:+ queryString
                +:+ "&_embed=" +:+ embed_posts)
             (SearchParams.page params) (SearchParams.perPage params).

(** The tail of [getPost] and [getPage]: a collection gives its first
    record, or the not-found error when it is empty. *)
Definition first_or_404 (what : string) (result : Json) : M Json :=
  match result with
  | JArr [] => throw (WordPressApiError (what +:+ " not found") (Some 404) None)
  | JArr (first :: _) => ret first
  | _ => ret result
  end.

Definition getPost_endpoint (identifier : Identifier) : string :=
  match identifier with
  | IdNumber n => "/posts/" +:+ Z_toString n +:+ "?_embed=" +:+ embed_posts
  | IdString slug => "/posts?slug=" +:+ slug +:+ "&_embed=" +:+ embed_posts
  end.

Definition getPost (identifier : Identifier) : M Json :=
  result <- request be config (getPost_endpoint identifier) no_options default_cacheTtl ;;
  first_or_404 "Post" result.

Definition getPage_endpoint (identifier : Identifier) : string :=
  match identifier with
  | IdNumber n => "/pages/" +:+ Z_toString n +:+ "?_embed=" +:+ embed_pages
  | IdString slug => "/pages?slug=" +:+ slug +:+ "&_embed=" +:+ embed_pages
  end.

Definition getPage (identifier : Identifier) : M Json :=
  result <- request be config (getPage_endpoint identifier) no_options default_cacheTtl ;;
  first_or_404 "Page" result.

Definition clearCache : M unit :=
  fun s => (Returned tt, mkState (clock s) (calls s) ∅).

Definition healthCheck : M HealthStatus :=
  fun s =>
    (* 5 second timeout for health checks *)
    let sg := AbortSignal_timeout (clock s) 5000 in
    match fetch be (Config.baseUrl config +:+ api_root) (Some "GET") [] sg s with
    | (Returned response, _, s1) =>
        if ok response then
          (Returned (mkHealthStatus healthy "WordPress API is accessible"), s1)
        else
          (Returned (mkHealthStatus unhealthy
                       ("WordPress API returned " +:+ Z_toString (status response)
                          +:+ ": " +:+ statusText response)), s1)
    | (Thrown error, _, s1) =>
        (Returned (mkHealthStatus unhealthy
                     ("WordPress API is not accessible: " +:+ error_message error)), s1)
    end.

End Operations.

(** A fresh client: nothing fetched, nothing cached. *)
Definition initial (now : Z) : State := mkState now [] ∅.

(** ** Sample configuration and responses *)

Definition demo_config : Config.t :=
  constructor (mkWordPressConfig "http://localhost:3042/wp" None None None).

Definition json_response (st : Z) (text : string) (hs : list (string * string))
    (v : Json) : Response :=
  mkResponse st text hs (Some v).

(** ** The four list operations as one family *)

Inductive ListOp : Type :=
| ListPosts (params : PostsParams.t)
| ListPages (params : PagesParams.t)
| ListCategories (params : CategoriesParams.t)
| ListSearch (query : string) (params : SearchParams.t).

Definition run_list (be : Backend) (config : Config.t) (op : ListOp)
  : M WordPressApiResponse.t :=
  match op with
  | ListPosts params => getPosts be config params
  | ListPages params => getPages be config params
  | ListCategories params => getCategories be config params
  | ListSearch query params => search be config query params
  end.

(** The [page] and [perPage] of the operation's argument. *)
Definition list_page (op : ListOp) : option Z :=
  match op with
  | ListPosts params => PostsParams.page params
  | ListPages params => PagesParams.page params
  | ListCategories params => CategoriesParams.page params
  | ListSearch _ params => SearchParams.page params
  end.

Definition list_perPage (op : ListOp) : option Z :=
  match op with
  | ListPosts params => PostsParams.perPage params
  | ListPages params => PagesParams.perPage params
  | ListCategories params => CategoriesParams.perPage params
  | ListSearch _ params => SearchParams.perPage params
  end.

(** The URL the operation fetches. *)
Definition list_url (config : Config.t) (op : ListOp) : string :=
  match op with
  | ListPosts params => getPosts_url config params
  | ListPages params =>
      Config.baseUrl config +:+ api_root +:+
        with_query "/pages" (URLSearchParams_toString (getPages_searchParams params))
  | ListCategories params =>
      Config.baseUrl config +:+ api_root +:+
        with_query "/categories"
          (URLSearchParams_toString (getCategories_searchParams params))
  | ListSearch query params =>
      Config.baseUrl config +:+ api_root +:+
        match default Type_any (SearchParams.type params) with
        | Type_page => "/pages"
        | _ => "/posts"
        end +:+ "?" +:+ URLSearchParams_toString (search_searchParams query params)
        +:+ "&_embed=" +:+ embed_posts
  end.

(** The prefix of the message of the error the operation throws. *)
Definition list_failure (op : ListOp) : string :=
  match op with
  | ListPosts _ => "Failed to fetch posts: "
  | ListPages _ => "Failed to fetch pages: "
  | ListCategories _ => "Failed to fetch categories: "
  | ListSearch _ _ => "Search failed: "
  end.

(** [parseInt(response.headers.get(name) || '0')] *)
Definition header_count (r : Response) (name : string) : JsNumber :=
  parseInt (string_or (headers_get (headers r) name) "0").

(** What a list operation makes of the reply to its one [fetch]. *)
Definition list_outcome (op : ListOp) (reply : FetchReply)
  : Outcome WordPressApiResponse.t :=
  match reply with
  | Fails _ msg => Thrown (TypeError msg)
  | Responds _ r =>
      if ok r then
        match body r with
        | Some items =>
            Returned (WordPressApiResponse.mk items
                        (header_count r "X-WP-Total")
                        (header_count r "X-WP-TotalPages")
                        (number_or (list_page op) 1)
                        (number_or (list_perPage op) 10))
        | None => Thrown (SyntaxError "Unexpected token in JSON")
        end
      else Thrown (WordPressApiError (list_failure op +:+ statusText r)
                                     (Some (status r)) None)
  end.

(** The invariant the specification states for a paginated result. *)
Definition page_invariant (res : WordPressApiResponse.t) : Prop :=
  match WordPressApiResponse.data res with
  | JArr items => Z.of_nat (List.length items) <= WordPressApiResponse.perPage res
  | _ => True
  end
  /\ 1 <= WordPressApiResponse.page res.

(** What an optional number, string or defined value contributes to the
    search parameters. *)
Definition number_field (name : string) (v : option Z) : URLSearchParams :=
  match v with
  | Some n => if n =? 0 then [] else [(name, Z_toString n)]
  | None => []
  end.

Definition string_field (name : string) (v : option string) : URLSearchParams :=
  match v with
  | Some x => if (x =? "")%string then [] else [(name, x)]
  | None => []
  end.

(** A number that is present and not zero, a string that is present and
    not empty: the values [if (v)] lets through. *)
Definition truthy_number (v : option Z) : Prop := exists n, v = Some n /\ n <> 0.
Definition truthy_string (v : option string) : Prop := exists x, v = Some x /\ x <> "".

(** Sample backends and values. *)
Definition three_posts : Json :=
  JArr [JObj [("id", JNum 1)]; JObj [("id", JNum 2)]; JObj [("id", JNum 3)]].

Definition always (r : Response) : Backend := fun _ _ => Responds 10 r.

Definition ok_response (v : Json) : Response := json_response 200 "OK" [] v.

Definition paged_response : Response :=
  json_response 200 "OK" [("X-WP-Total", "3"); ("X-WP-TotalPages", "2")] three_posts.

Definition server_error : Response :=
  json_response 500 "Internal Server Error" [] (JObj []).

Definition not_found : Response :=
  json_response 404 "Not Found" []
    (JObj [("code", JStr "rest_post_invalid_id"); ("message", JStr "Invalid post ID.")]).

Definition unreachable : Backend := fun _ _ => Fails 3 "fetch failed".

(** ** Vocabulary for the retry loop *)

(** What the [try] block makes of the way its [fetch] settled: the parsed
    body of a 2xx response, or the error it throws. *)
Definition attempt_result (o : Outcome Response) : Outcome Json :=
  match o with
  | Thrown e => Thrown e
  | Returned r => if ok r then response_json r else Thrown (error_of_response r)
  end.

(** An attempt that failed with an error the [catch] block does not rethrow. *)
Definition retryable_failure (o : Outcome Response) : Prop :=
  exists e, attempt_result o = Thrown e /\ is_client_error e = false.

(** An attempt that failed with an error the [catch] block rethrows at once. *)
Definition terminal_failure (o : Outcome Response) : Prop :=
  exists e, attempt_result o = Thrown e /\ is_client_error e = true.

Definition attempt_succeeded (o : Outcome Response) : Prop :=
  exists d, attempt_result o = Returned d.

(** The [fetch] invocations of one run of the retry loop, in the order they
    were made: each goes to [url] and settles as the backend replies or by an
    abort; each but the last is a retryable failure, followed by a wait of
    [2^attempt] seconds before the next one starts. *)
Fixpoint backoff_trace (be : Backend) (url : string) (attempt start : Z)
    (index : nat) (cs : list FetchCall) : Prop :=
  match cs with
  | [] => True
  | c :: rest =>
      fc_url c = url
      /\ fc_started c = start
      /\ (fc_result c = settled_as (be index url) \/ fc_result c = Thrown AbortError)
      /\ match rest with
         | [] => True
         | _ :: _ =>
             retryable_failure (fc_result c)
             /\ backoff_trace be url (attempt + 1) (fc_settled c + 2 ^ attempt * 1000)
                              (S index) rest
         end
  end.

(** The URL and the cache key of [request], and the cached data it would
    return without a network call. *)
Definition request_url (config : Config.t) (endpoint : string) : string :=
  Config.baseUrl config +:+ api_root +:+ endpoint.

Definition request_cacheKey (config : Config.t) (endpoint : string)
    (options : RequestInit) : string :=
  request_url config endpoint +:+ ":" +:+ JSON_stringify options.

Definition cache_hit (config : Config.t) (endpoint : string)
    (options : RequestInit) (s : State) : option Json :=
  if cache_in_use config options
  then cache_lookup (request_cacheKey config endpoint options) s
  else None.

(** The cache after an attempt: a successful one stores its data, stamped
    with the time it settled, when the cache is in use. *)
Definition cache_after (config : Config.t) (cacheKey : string)
    (options : RequestInit) (cacheTtl : Z) (o : Outcome Json) (now : Z)
    (before : gmap string CacheEntry) : gmap string CacheEntry :=
  match o with
  | Returned d =>
      if cache_in_use config options
      then <[cacheKey := mkCacheEntry d now cacheTtl]> before
      else before
  | Thrown _ => before
  end.

Definition generic_error : JsError :=
  WordPressApiError "Request failed after retries" None None.

(** ** Vocabulary for the failure policy *)

(** A reply that is a failure: a rejected [fetch], or a response that is
    not 2xx.  The response carries an HTTP status (not 0) and its body, if
    it is JSON at all, is not the literal [null]. *)
Definition failure_reply (reply : FetchReply) : Prop :=
  match reply with
  | Fails _ _ => True
  | Responds _ r => ok r = false /\ status r <> 0 /\ body r <> Some JNull
  end.

(** The failures that are retried: a rejected [fetch] (network failure,
    abort by the timer) and a response with status 500 or more. *)
Definition retried_kind (o : Outcome Response) : Prop :=
  match o with
  | Thrown _ => True
  | Returned r => 500 <= status r
  end.

(** The schedule of the attempts of one [request], in the order they were
    made: every attempt but the last is of the retried kind and is followed
    by a wait of [2^attempt] seconds. *)
Fixpoint retry_schedule (attempt start : Z) (cs : list FetchCall) : Prop :=
  match cs with
  | [] => True
  | c :: rest =>
      fc_started c = start
      /\ match rest with
         | [] => True
         | _ :: _ =>
             retried_kind (fc_result c)
             /\ retry_schedule (attempt + 1) (fc_settled c + 2 ^ attempt * 1000) rest
         end
  end.

(** The way a logged invocation can have settled: as one of the backend's
    replies, or by an abort. *)
Definition sourced (be : Backend) (url : string) (o : Outcome Response) : Prop :=
  (exists i, o = settled_as (be i url)) \/ o = Thrown AbortError.

(** The headers [request] sends. *)
Definition request_headers : list (string * string) :=
  [("Content-Type", "application/json"); ("Accept", "application/json")].

(** An outcome that ends the retry loop at once: data, or an error the
    [catch] block rethrows. *)
Definition decisive (o : Outcome Json) : Prop :=
  match o with
  | Returned _ => True
  | Thrown e => is_client_error e = true
  end.

(** A client whose only cache entry was stored 400 seconds ago. *)
Definition old_entry : CacheEntry := mkCacheEntry (JStr "old") 0 default_cacheTtl.

Definition stale_state : State :=
  mkState 400000 []
          (<[request_cacheKey demo_config "/posts/7" no_options := old_entry]> ∅).

(** ** getPost and getPage as one family, and all operations as one *)

Inductive ItemKind : Type := PostItem | PageItem.

Definition getItem (be : Backend) (config : Config.t) (kind : ItemKind)
    (identifier : Identifier) : M Json :=
  match kind with
  | PostItem => getPost be config identifier
  | PageItem => getPage be config identifier
  end.

Definition item_endpoint (kind : ItemKind) (identifier : Identifier) : string :=
  match kind with
  | PostItem => getPost_endpoint identifier
  | PageItem => getPage_endpoint identifier
  end.

Definition item_name (kind : ItemKind) : string :=
  match kind with
  | PostItem => "Post"
  | PageItem => "Page"
  end.

(** The collection endpoint that is queried for a slug. *)
Definition collection_endpoint (kind : ItemKind) (slug : string) : string :=
  match kind with
  | PostItem => "/posts?slug=" +:+ slug +:+ "&_embed=author,wp:featuredmedia,wp:term"
  | PageItem => "/pages?slug=" +:+ slug +:+ "&_embed=author,wp:featuredmedia"
  end.

Inductive Operation : Type :=
| OpList (op : ListOp)
| OpItem (kind : ItemKind) (identifier : Identifier)
| OpHealthCheck.

Inductive Result : Type :=
| ResList (res : WordPressApiResponse.t)
| ResItem (item : Json)
| ResHealth (h : HealthStatus).

Definition run (be : Backend) (config : Config.t) (op : Operation) : M Result :=
  match op with
  | OpList l => res <- run_list be config l ;; ret (ResList res)
  | OpItem kind identifier => item <- getItem be config kind identifier ;; ret (ResItem item)
  | OpHealthCheck => h <- healthCheck be config ;; ret (ResHealth h)
  end.


(** Backends for the timing of the retry loop.  The first answers 500 after
    10 ms and then takes a minute for every reply; the second refuses the
    connection twice and then takes eight seconds. *)
Definition slow_after_error : Backend :=
  fun n _ =>
    match n with
    | O => Responds 10 server_error
    | _ => Responds 60000 (ok_response (JStr "late"))
    end.

Definition slow_after_refusals : Backend :=
  fun n _ =>
    match n with
    | O | S O => Fails 5 "connect ECONNREFUSED"
    | _ => Responds 8000 (ok_response (JStr "late"))
    end.

(** How long each invocation of [fetch] took, in the order they were made. *)
Definition durations (s : State) : list Z :=
  map (fun c => fc_settled c - fc_started c) (rev (calls s)).

(** A backend that takes twenty seconds for every reply. *)
Definition always_slow : Backend :=
  fun _ _ => Responds 20000 (ok_response (JStr "late")).

(** When each invocation of [fetch] started and settled, in the order they
    were made. *)
Definition timeline (s : State) : list (Z * Z) :=
  map (fun c => (fc_started c, fc_settled c)) (rev (calls s)).


(** A 404 whose body is the JSON literal [null]. *)
Definition not_found_null : Response := mkResponse 404 "Not Found" [] (Some JNull).

(** * Properties *)

(** ** The helpers on concrete inputs *)

Example constructor_defaults :
  demo_config = Config.mk "http://localhost:3042/wp" 10000 true 3.
Proof. reflexivity. Qed.

Example parseInt_examples :
  parseInt "42" = Num 42 /\ parseInt "  -7px" = Num (-7) /\ parseInt "0x1F" = Num 31
  /\ parseInt "abc" = NaN /\ parseInt "" = NaN /\ parseInt "0" = Num 0.
Proof. repeat split; reflexivity. Qed.

Example form_encode_example :
  form_encode "hello world,a:b" = "hello+world%2Ca%3Ab".
Proof. reflexivity. Qed.

Example getPosts_queryString_example :
  getPosts_queryString
    (PostsParams.mk (Some 2) (Some 5) None None (Some "remix") (Some By_title)
                    (Some Desc) None)
  = "page=2&per_page=5&search=remix&orderby=title&order=desc&_embed=author%2Cwp%3Afeaturedmedia%2Cwp%3Aterm".
Proof. reflexivity. Qed.

Example headers_get_example :
  headers_get [("x-wp-total", "3"); ("Content-Type", "application/json")] "X-WP-Total"
  = Some "3".
Proof. reflexivity. Qed.

(** ** What one [fetch] does to the state *)

Lemma latency_nonneg (r : FetchReply) : 0 <= latency_of r.
Proof. destruct r; simpl; lia. Qed.

(** Every invocation of [fetch] is logged, with the time of the call, the
    time it settled and its result; the cache is not touched and the clock
    does not go back. *)
Lemma fetch_logged be url m hs sg s :
  exists o sg' t,
    fetch be url m hs sg s
    = (o, sg', mkState t (mkFetchCall url m hs (clock s) t o :: calls s) (cache s))
    /\ clock s <= t.
Proof.
  unfold fetch.
  pose proof (latency_nonneg (be (List.length (calls s)) url)) as Hl.
  destruct (aborted sg).
  - eexists _, _, _. split; [reflexivity | lia].
  - destruct (aborted (tick _ sg)).
    + eexists _, _, _. split; [reflexivity | lia].
    + destruct (be (List.length (calls s)) url); simpl in Hl;
        (eexists _, _, _; split; [reflexivity | simpl; lia]).
Qed.

Lemma tick_in_time sg t : in_time sg t -> tick t sg = sg.
Proof.
  intros [_ Hd]. unfold tick. destruct (deadline sg) as [d|]; [|reflexivity].
  destruct (Z.leb_spec d t); [lia | reflexivity].
Qed.

Lemma fetch_in_time be url m hs sg s :
  let reply := be (List.length (calls s)) url in
  let t := clock s + latency_of reply in
  in_time sg t ->
  fetch be url m hs sg s
  = (settled_as reply, sg,
     mkState t (mkFetchCall url m hs (clock s) t (settled_as reply) :: calls s) (cache s)).
Proof.
  intros reply t Hin. unfold fetch. fold reply. fold t.
  rewrite (tick_in_time _ _ Hin). destruct Hin as [-> _].
  destruct reply; reflexivity.
Qed.

Lemma no_signal_in_time t : in_time no_signal t.
Proof. split; [reflexivity | exact I]. Qed.

Lemma fetch_plain_eq be url m hs s :
  let reply := be (List.length (calls s)) url in
  let t := clock s + latency_of reply in
  fetch_plain be url m hs s
  = (settled_as reply,
     mkState t (mkFetchCall url m hs (clock s) t (settled_as reply) :: calls s) (cache s)).
Proof.
  intros reply t. unfold fetch_plain.
  rewrite (fetch_in_time be url m hs no_signal s (no_signal_in_time _)).
  reflexivity.
Qed.

(** ** healthCheck *)

(** C6.  [healthCheck] invokes [fetch] exactly once, whatever the configured
    [retries], [timeout] and [cache] are: one GET of the API root, settled
    at the latest 5000 ms after the call by the signal's own timer.  It
    always returns a status, and the result does not depend on the retry
    policy. *)
Theorem healthCheck_single_call (be : Backend) (baseUrl : string)
    (timeout retries : Z) (cache_on : bool) (s : State) :
  let config := Config.mk baseUrl timeout cache_on retries in
  exists (h : HealthStatus) (c : FetchCall) (s' : State),
    healthCheck be config s = (Returned h, s')
    /\ calls s' = c :: calls s
    /\ network_calls s' = S (network_calls s)
    /\ fc_url c = baseUrl +:+ "/wp-json/wp/v2"
    /\ fc_method c = Some "GET"
    /\ fc_started c = clock s
    /\ fc_settled c <= fc_started c + 5000
    /\ cache s' = cache s
    /\ healthCheck be config s = healthCheck be (Config.mk baseUrl 10000 true 3) s.
Proof.
  intros config. unfold healthCheck, network_calls. simpl.
  set (sg := AbortSignal_timeout (clock s) 5000).
  assert (Hbound : forall o sg' s1,
             fetch be (baseUrl +:+ api_root) (Some "GET") [] sg s = (o, sg', s1) ->
             clock s1 <= clock s + 5000).
  { unfold fetch, sg. simpl.
    pose proof (latency_nonneg (be (List.length (calls s)) (baseUrl +:+ api_root))) as Hl.
    unfold tick. simpl.
    destruct (Z.leb_spec (clock s + 5000)
                (clock s + latency_of (be (List.length (calls s)) (baseUrl +:+ api_root)))).
    - simpl. intros o sg' s1 [= <- <- <-]. simpl. lia.
    - simpl. destruct (be _ _); simpl in *; intros o sg' s1 [= <- <- <-]; simpl; lia. }
  destruct (fetch_logged be (baseUrl +:+ api_root) (Some "GET") [] sg s)
    as (o & sg' & t & Heq & Ht).
  specialize (Hbound _ _ _ Heq). simpl in Hbound.
  rewrite Heq.
  destruct o as [response|error]; [destruct (ok response)|];
    (eexists _, _, _; repeat split; simpl; try reflexivity; try lia).
Qed.

(** ** The list operations *)

Lemma run_list_fetch_list be config op :
  run_list be config op
  = fetch_list be (list_failure op) (list_url config op) (list_page op) (list_perPage op).
Proof. destruct op; reflexivity. Qed.

(** A list operation invokes [fetch] once, without a signal, and turns the
    reply into its result; it neither reads nor writes the cache. *)
Lemma run_list_eq be config op s :
  let reply := be (List.length (calls s)) (list_url config op) in
  let t := clock s + latency_of reply in
  run_list be config op s
  = (list_outcome op reply,
     mkState t
       (mkFetchCall (list_url config op) (Some "GET") [("Accept", "application/json")]
          (clock s) t (settled_as reply) :: calls s)
       (cache s)).
Proof.
  intros reply t. rewrite run_list_fetch_list. unfold fetch_list, bind.
  rewrite fetch_plain_eq. fold reply. fold t.
  unfold list_outcome, header_count.
  destruct reply as [lat r|lat msg]; simpl; [|reflexivity].
  destruct (ok r); simpl; [|reflexivity].
  unfold response_json. destruct (body r); reflexivity.
Qed.

(** C10.  When the reply to [getPosts], [getPages], [getCategories] or
    [search] is a 2xx response with a JSON body, the operation returns a
    result, and a missing [X-WP-Total] header gives [total = 0], a missing
    [X-WP-TotalPages] header gives [totalPages = 0]. *)
Theorem missing_pagination_headers_count_as_zero
    (be : Backend) (config : Config.t) (op : ListOp) (s : State)
    (lat : N) (r : Response) (items : Json) :
  be (network_calls s) (list_url config op) = Responds lat r ->
  ok r = true ->
  body r = Some items ->
  exists res s',
    run_list be config op s = (Returned res, s')
    /\ WordPressApiResponse.data res = items
    /\ (headers_get (headers r) "X-WP-Total" = None ->
        WordPressApiResponse.total res = Num 0)
    /\ (headers_get (headers r) "X-WP-TotalPages" = None ->
        WordPressApiResponse.totalPages res = Num 0).
Proof.
  intros Hreply Hok Hbody. rewrite run_list_eq.
  unfold network_calls in Hreply. rewrite Hreply. simpl. rewrite Hok, Hbody.
  eexists _, _. split; [reflexivity|]. simpl. split; [reflexivity|].
  unfold header_count. split; intros ->; reflexivity.
Qed.

Lemma missing_pagination_headers_witness :
  exists res s',
    run_list (always (ok_response three_posts)) demo_config
             (ListSearch "remix" SearchParams.empty) (initial 0)
    = (Returned res, s')
    /\ WordPressApiResponse.data res = three_posts
    /\ (headers_get [] "X-WP-Total" = None -> WordPressApiResponse.total res = Num 0)
    /\ (headers_get [] "X-WP-TotalPages" = None ->
        WordPressApiResponse.totalPages res = Num 0).
Proof.
  apply (missing_pagination_headers_count_as_zero
           (always (ok_response three_posts)) demo_config
           (ListSearch "remix" SearchParams.empty) (initial 0)
           10%N (ok_response three_posts) three_posts); reflexivity.
Defined.

(** C9 (as the code has it).  A result returned by [getPosts], [getPages],
    [getCategories] or [search] comes from a 2xx reply: [data] is the
    parsed body as it is, [total] and [totalPages] are parsed from the
    headers [X-WP-Total] and [X-WP-TotalPages], [page] is the argument's
    page or 1 when that is absent or 0, and [perPage] the argument's
    perPage or 10.  Hence [page >= 1] when the argument's page is absent or
    not negative; the length of [data] is whatever the backend sent. *)
Theorem paginated_result_from_reply
    (be : Backend) (config : Config.t) (op : ListOp) (s s' : State)
    (res : WordPressApiResponse.t) :
  run_list be config op s = (Returned res, s') ->
  exists lat r,
    be (network_calls s) (list_url config op) = Responds lat r
    /\ ok r = true
    /\ body r = Some (WordPressApiResponse.data res)
    /\ WordPressApiResponse.total res = header_count r "X-WP-Total"
    /\ WordPressApiResponse.totalPages res = header_count r "X-WP-TotalPages"
    /\ WordPressApiResponse.page res = number_or (list_page op) 1
    /\ WordPressApiResponse.perPage res = number_or (list_perPage op) 10
    /\ ((forall p, list_page op = Some p -> 0 <= p) -> 1 <= WordPressApiResponse.page res).
Proof.
  rewrite run_list_eq. unfold network_calls.
  destruct (be (List.length (calls s)) (list_url config op)) as [lat r|lat msg] eqn:Hreply;
    simpl; [|discriminate].
  destruct (ok r) eqn:Hok; [|discriminate].
  destruct (body r) as [items|] eqn:Hbody; [|discriminate].
  intros [= <- <-]. exists lat, r. simpl.
  do 7 (split; [first [reflexivity | assumption]|]).
  intros Hpage. unfold number_or. destruct (list_page op) as [p|]; [|lia].
  specialize (Hpage p eq_refl). destruct (Z.eqb_spec p 0); lia.
Qed.

Lemma paginated_result_witness :
  exists lat r,
    always paged_response (network_calls (initial 0))
           (list_url demo_config (ListPosts PostsParams.empty)) = Responds lat r
    /\ ok r = true
    /\ body r = Some three_posts
    /\ Num 3 = header_count r "X-WP-Total"
    /\ Num 2 = header_count r "X-WP-TotalPages"
    /\ 1 = number_or None 1
    /\ 10 = number_or None 10
    /\ ((forall p, @None Z = Some p -> 0 <= p) -> 1 <= 1).
Proof.
  apply (paginated_result_from_reply (always paged_response) demo_config
           (ListPosts PostsParams.empty) (initial 0)
           (snd (run_list (always paged_response) demo_config
                          (ListPosts PostsParams.empty) (initial 0)))
           (WordPressApiResponse.mk three_posts (Num 3) (Num 2) 1 10)).
  reflexivity.
Defined.

(** C9, counterexample.  The client does not establish the invariant: with
    [perPage = 2] and a backend that sends three records, [getPosts]
    returns all three; with [page = -1] it returns a result whose page is
    -1. *)
Lemma paginated_invariant_not_enforced :
  (exists res s',
      getPosts (always paged_response) demo_config
               (PostsParams.mk None (Some 2) None None None None None None) (initial 0)
      = (Returned res, s')
      /\ WordPressApiResponse.data res = three_posts
      /\ WordPressApiResponse.perPage res = 2
      /\ ~ page_invariant res)
  /\ (exists res s',
      getPosts (always paged_response) demo_config
               (PostsParams.mk (Some (-1)) None None None None None None None) (initial 0)
      = (Returned res, s')
      /\ WordPressApiResponse.page res = -1
      /\ ~ page_invariant res).
Proof.
  split; eexists _, _; (split; [reflexivity|]); simpl;
    repeat split; unfold page_invariant; simpl; lia.
Qed.

(** ** The query string of getPosts *)

Lemma append_number_field name v sp :
  append_number name v sp = (sp ++ number_field name v)%list.
Proof.
  unfold append_number, number_field, append.
  destruct v as [n|]; [destruct (n =? 0)|]; try reflexivity;
    symmetry; apply app_nil_r.
Qed.

Lemma append_string_field name v sp :
  append_string name v sp = (sp ++ string_field name v)%list.
Proof.
  unfold append_string, string_field, append.
  destruct v as [x|]; [destruct (x =? "")%string|]; try reflexivity;
    symmetry; apply app_nil_r.
Qed.

Lemma in_number_field name v key :
  In key (map fst (number_field name v)) <-> key = name /\ truthy_number v.
Proof.
  unfold number_field, truthy_number. destruct v as [n|]; simpl.
  - destruct (Z.eqb_spec n 0); simpl.
    + split; [tauto | intros [_ (m & [= <-] & Hm)]; auto].
    + split; [intros [<-|[]]; eauto | intros [-> _]; auto].
  - split; [tauto | intros [_ (m & [=] & _)]].
Qed.

Lemma in_string_field name v key :
  In key (map fst (string_field name v)) <-> key = name /\ truthy_string v.
Proof.
  unfold string_field, truthy_string. destruct v as [x|]; simpl.
  - destruct (String.eqb_spec x ""); simpl.
    + split; [tauto | intros [_ (m & [= <-] & Hm)]; auto].
    + split; [intros [<-|[]]; eauto | intros [-> _]; auto].
  - split; [tauto | intros [_ (m & [=] & _)]].
Qed.

Lemma truthy_string_fmap {A} (f : A -> string) (v : option A) :
  (forall a, f a <> "") -> truthy_string (f <$> v) <-> v <> None.
Proof.
  intros Hf. unfold truthy_string. destruct v as [a|]; simpl.
  - split; [discriminate | eauto].
  - split; [intros (x & [=] & _) | congruence].
Qed.

(** The search parameters of [getPosts], field by field. *)
Lemma getPosts_searchParams_fields (params : PostsParams.t) :
  getPosts_searchParams params
  = (number_field "page" (PostsParams.page params)
     ++ number_field "per_page" (PostsParams.perPage params)
     ++ string_field "categories" (PostsParams.categories params)
     ++ string_field "tags" (PostsParams.tags params)
     ++ string_field "search" (PostsParams.search params)
     ++ string_field "orderby" (Orderby_toString <$> PostsParams.orderby params)
     ++ string_field "order" (Order_toString <$> PostsParams.order params)
     ++ string_field "status" (PostStatus_toString <$> PostsParams.status params)
     ++ [("_embed", "author,wp:featuredmedia,wp:term")])%list.
Proof.
  unfold getPosts_searchParams.
  rewrite !append_number_field, !append_string_field. unfold append.
  simpl. rewrite <- !app_assoc. reflexivity.
Qed.

(** C8 (as the code has it).  With no field set the search parameters of
    [getPosts] are the [_embed] parameter alone.  In general they are a
    function of the argument: the fields that are present with a truthy
    value (a number other than 0, a string other than the empty one), each
    once and in a fixed order, followed by [_embed]; a field that is
    absent, a page or perPage of 0 and an empty string add nothing. *)
Theorem getPosts_query_from_truthy_fields :
  getPosts_searchParams PostsParams.empty = [("_embed", "author,wp:featuredmedia,wp:term")]
  /\ getPosts_queryString PostsParams.empty
     = "_embed=author%2Cwp%3Afeaturedmedia%2Cwp%3Aterm"
  /\ (forall params : PostsParams.t,
        getPosts_searchParams params
        = (number_field "page" (PostsParams.page params)
           ++ number_field "per_page" (PostsParams.perPage params)
           ++ string_field "categories" (PostsParams.categories params)
           ++ string_field "tags" (PostsParams.tags params)
           ++ string_field "search" (PostsParams.search params)
           ++ string_field "orderby" (Orderby_toString <$> PostsParams.orderby params)
           ++ string_field "order" (Order_toString <$> PostsParams.order params)
           ++ string_field "status" (PostStatus_toString <$> PostsParams.status params)
           ++ [("_embed", "author,wp:featuredmedia,wp:term")])%list)
  /\ forall (params : PostsParams.t) (key : string),
      In key (map fst (getPosts_searchParams params)) <->
      key = "_embed"
      \/ (key = "page" /\ truthy_number (PostsParams.page params))
      \/ (key = "per_page" /\ truthy_number (PostsParams.perPage params))
      \/ (key = "categories" /\ truthy_string (PostsParams.categories params))
      \/ (key = "tags" /\ truthy_string (PostsParams.tags params))
      \/ (key = "search" /\ truthy_string (PostsParams.search params))
      \/ (key = "orderby" /\ PostsParams.orderby params <> None)
      \/ (key = "order" /\ PostsParams.order params <> None)
      \/ (key = "status" /\ PostsParams.status params <> None).
Proof.
  split; [reflexivity|]. split; [reflexivity|].
  split; [exact getPosts_searchParams_fields|].
  intros params key. rewrite getPosts_searchParams_fields.
  rewrite !map_app, !in_app_iff, !in_number_field, !in_string_field.
  rewrite (truthy_string_fmap Orderby_toString), (truthy_string_fmap Order_toString),
    (truthy_string_fmap PostStatus_toString);
    try (intros []; discriminate).
  simpl. intuition (subst; auto).
Qed.

(** C8, counterexample.  A filter whose [page] is 0 and whose [search] is
    the empty string has both fields present, and gets the query string of
    the empty filter. *)
Lemma getPosts_query_drops_falsy_fields :
  let params := PostsParams.mk (Some 0) None None None (Some "") None None None in
  PostsParams.page params <> None
  /\ PostsParams.search params <> None
  /\ getPosts_searchParams params = [("_embed", "author,wp:featuredmedia,wp:term")]
  /\ getPosts_queryString params = getPosts_queryString PostsParams.empty.
Proof. repeat split; discriminate. Qed.

(** ** The retry loop of request *)

Lemma fetch_result be url m hs sg s o sg' s' :
  fetch be url m hs sg s = (o, sg', s') ->
  calls s' = mkFetchCall url m hs (clock s) (clock s') o :: calls s
  /\ cache s' = cache s
  /\ clock s <= clock s'
  /\ (o = settled_as (be (List.length (calls s)) url) \/ o = Thrown (reason sg))
  /\ reason sg' = reason sg.
Proof.
  unfold fetch.
  pose proof (latency_nonneg (be (List.length (calls s)) url)) as Hl.
  destruct (aborted sg).
  { intros [= <- <- <-]. simpl. repeat split; auto; lia. }
  assert (Hr : reason (tick (clock s + latency_of (be (List.length (calls s)) url)) sg)
               = reason sg).
  { unfold tick. destruct (deadline sg); [|reflexivity].
    destruct (_ <=? _); reflexivity. }
  destruct (aborted (tick _ sg)).
  { intros [= <- <- <-]. simpl. repeat split; auto; lia. }
  destruct (be (List.length (calls s)) url); simpl in *;
    intros [= <- <- <-]; simpl; repeat split; auto; lia.
Qed.

Section RetryLoop.
Variable be : Backend.
Variable config : Config.t.
Variables url cacheKey : string.
Variable options : RequestInit.
Variable cacheTtl : Z.

(** One pass through the [try] block logs one invocation of [fetch]; its
    outcome is read off the way that invocation settled, and only a
    successful pass touches the cache. *)
Lemma try_block_spec sg s o sg' s' :
  try_block be config url cacheKey options cacheTtl sg s = (o, sg', s') ->
  exists c,
    calls s' = c :: calls s
    /\ fc_url c = url
    /\ fc_started c = clock s
    /\ fc_settled c = clock s'
    /\ clock s <= clock s'
    /\ o = attempt_result (fc_result c)
    /\ (fc_result c = settled_as (be (List.length (calls s)) url)
        \/ fc_result c = Thrown (reason sg))
    /\ reason sg' = reason sg
    /\ cache s' = cache_after config cacheKey options cacheTtl o (clock s') (cache s).
Proof.
  unfold try_block.
  destruct (fetch be url (method options) _ sg s) as [[fetched sg1] s1] eqn:Hf.
  apply fetch_result in Hf. destruct Hf as (Hc & Hk & Ht & Hs & Hr).
  destruct fetched as [response|e].
  - destruct (ok response) eqn:Hok; simpl.
    + unfold response_json. destruct (body response) as [d|] eqn:Hb.
      * intros [= <- <- <-]. eexists. unfold cache_after.
        destruct (cache_in_use config options); simpl;
          (split; [exact Hc|]); simpl; rewrite Hok; unfold response_json; rewrite Hb;
          repeat split; auto; congruence.
      * intros [= <- <- <-]. eexists. split; [exact Hc|]. simpl. rewrite Hok.
        unfold response_json. rewrite Hb. repeat split; auto.
    + intros [= <- <- <-]. eexists. split; [exact Hc|]. simpl. rewrite Hok.
      repeat split; auto.
  - intros [= <- <- <-]. eexists. split; [exact Hc|]. simpl. repeat split; auto.
Qed.

Lemma tick_reason t sg : reason (tick t sg) = reason sg.
Proof.
  unfold tick. destruct (deadline sg); [|reflexivity].
  destruct (_ <=? _); reflexivity.
Qed.

(** The state between two iterations: the wait happens exactly when
    another iteration follows. *)
Lemma between_attempts attempt sg1 s1 sg2 s2 :
  (if attempt <? Config.retries config - 1
   then sleep (2 ^ attempt * 1000) sg1 s1
   else (sg1, s1)) = (sg2, s2) ->
  calls s2 = calls s1
  /\ cache s2 = cache s1
  /\ reason sg2 = reason sg1
  /\ clock s2 = (if attempt <? Config.retries config - 1
                 then clock s1 + 2 ^ attempt * 1000
                 else clock s1).
Proof.
  destruct (attempt <? Config.retries config - 1); unfold sleep;
    intros [= <- <-]; simpl; repeat split; auto using tick_reason.
Qed.

(** The run of the loop, read off the log.  [remaining] iterations from
    [attempt] on make at most [remaining] invocations of [fetch]; the loop
    ends at the first attempt that succeeds or fails terminally, or after
    the last iteration, and its outcome is that of the last attempt.  With
    no iteration at all it throws [lastError], or the generic error. *)
Lemma retry_loop_trace remaining attempt lastError sg s o s' :
  reason sg = AbortError ->
  (remaining = 0%nat \/ Z.of_nat remaining + attempt = Config.retries config) ->
  retry_loop be config remaining attempt url cacheKey options cacheTtl lastError sg s
  = (o, s') ->
  exists cs,
    calls s' = (rev cs ++ calls s)%list
    /\ (List.length cs <= remaining)%nat
    /\ backoff_trace be url attempt (clock s) (List.length (calls s)) cs
    /\ match last cs with
       | None => remaining = 0%nat /\ o = Thrown (default generic_error lastError) /\ s' = s
       | Some c =>
           o = attempt_result (fc_result c)
           /\ clock s' = fc_settled c
           /\ cache s' = cache_after config cacheKey options cacheTtl o (clock s') (cache s)
           /\ (attempt_succeeded (fc_result c) \/ terminal_failure (fc_result c)
               \/ List.length cs = remaining)
       end.
Proof.
  revert attempt lastError sg s.
  induction remaining as [|n IH]; intros attempt lastError sg s Hreason Hinv; simpl.
  { intros [= <- <-]. exists []. simpl. repeat split; auto. }
  destruct (try_block be config url cacheKey options cacheTtl sg s)
    as [[o1 sg1] s1] eqn:Htry.
  apply try_block_spec in Htry.
  destruct Htry as (c & Hcalls & Hurl & Hstart & Hsettled & Hclock & Ho1 & Hsrc & Hr1 & Hcache).
  rewrite Hreason in Hsrc.
  assert (Hone : backoff_trace be url attempt (clock s) (List.length (calls s)) [c]).
  { simpl. repeat split; auto. }
  destruct o1 as [d|error].
  - intros [= <- <-]. exists [c]. simpl. rewrite Hcalls.
    split; [reflexivity|]. split; [lia|]. split; [exact Hone|].
    repeat split; auto. left. exists d. auto.
  - destruct (is_client_error error) eqn:Hclient.
    + intros [= <- <-]. exists [c]. simpl. rewrite Hcalls.
      split; [reflexivity|]. split; [lia|]. split; [exact Hone|].
      repeat split; auto. right. left. exists error. auto.
    + destruct (if attempt <? Config.retries config - 1
                then sleep (2 ^ attempt * 1000) sg1 s1 else (sg1, s1))
        as [sg2 s2] eqn:Hwait.
      apply between_attempts in Hwait. destruct Hwait as (Hc2 & Hk2 & Hr2 & Ht2).
      intros Hloop.
      assert (Hinv' : Z.of_nat (S n) + attempt = Config.retries config)
        by (destruct Hinv; [discriminate | assumption]).
      apply IH in Hloop; [| congruence | right; lia].
      destruct Hloop as (cs & Hcs & Hlen & Htrace & Hlast).
      exists (c :: cs). simpl rev. rewrite Hcs, Hc2, Hcalls, <- app_assoc.
      split; [reflexivity|]. split; [simpl; lia|].
      split.
      * simpl. repeat split; auto.
        destruct cs as [|c2 cs2]; [exact I|].
        split; [exists error; auto|].
        simpl in Hlen.
        assert (Hlt : (attempt <? Config.retries config - 1) = true)
          by (apply Z.ltb_lt; lia).
        rewrite Hlt in Ht2. rewrite Hc2, Hcalls, Ht2, <- Hsettled in Htrace.
        exact Htrace.
      * rewrite last_cons. destruct (last cs) as [c'|] eqn:Hl.
        -- destruct Hlast as (Ho & Hclk & Hch & Hend).
           rewrite Hk2, Hcache in Hch. simpl in Hch.
           repeat split; auto. simpl. destruct Hend as [?|[?|?]]; auto.
        -- destruct Hlast as (-> & -> & ->).
           assert (Hge : (attempt <? Config.retries config - 1) = false)
             by (apply Z.ltb_ge; lia).
           rewrite Hge in Ht2. apply last_None in Hl. subst cs. simpl.
           rewrite Hk2, Hcache. simpl. repeat split; auto; congruence.
Qed.

End RetryLoop.

(** ** request: cache, then the retry loop *)

Section Request.
Variable be : Backend.
Variable config : Config.t.
Variable endpoint : string.
Variable options : RequestInit.
Variable cacheTtl : Z.

Let url := request_url config endpoint.
Let cacheKey := request_cacheKey config endpoint options.

(** A fresh cache entry is returned without any invocation of [fetch]. *)
Lemma request_hit s d :
  cache_hit config endpoint options s = Some d ->
  request be config endpoint options cacheTtl s = (Returned d, s).
Proof.
  unfold request, cache_hit, request_cacheKey, request_url. intros ->. reflexivity.
Qed.

Lemma request_miss s :
  cache_hit config endpoint options s = None ->
  request be config endpoint options cacheTtl s
  = retry_loop be config (Z.to_nat (Config.retries config)) 0 url cacheKey options
               cacheTtl None
               (controller_with_timer (clock s) (Config.timeout config)) s.
Proof.
  unfold request, cache_hit, request_cacheKey, request_url. intros ->. reflexivity.
Qed.

(** Without a fresh cache entry, [request] is the retry loop from attempt 0. *)
Lemma request_trace s o s' :
  cache_hit config endpoint options s = None ->
  request be config endpoint options cacheTtl s = (o, s') ->
  exists cs,
    calls s' = (rev cs ++ calls s)%list
    /\ (List.length cs <= Z.to_nat (Config.retries config))%nat
    /\ backoff_trace be url 0 (clock s) (List.length (calls s)) cs
    /\ match last cs with
       | None => Config.retries config <= 0 /\ o = Thrown generic_error /\ s' = s
       | Some c =>
           o = attempt_result (fc_result c)
           /\ clock s' = fc_settled c
           /\ cache s' = cache_after config cacheKey options cacheTtl o (clock s') (cache s)
           /\ (attempt_succeeded (fc_result c) \/ terminal_failure (fc_result c)
               \/ List.length cs = Z.to_nat (Config.retries config))
       end.
Proof.
  intros Hmiss. rewrite (request_miss s Hmiss). intros Hloop.
  apply retry_loop_trace in Hloop; [| reflexivity | lia].
  destruct Hloop as (cs & Hcs & Hlen & Htrace & Hlast).
  exists cs. repeat (split; [assumption|]).
  destruct (last cs); [exact Hlast|].
  destruct Hlast as (Hn & Ho & Hs). repeat split; auto. lia.
Qed.

End Request.

(** ** Classification of failures *)

Lemma error_of_response_typed r :
  body r <> Some JNull ->
  exists msg code, error_of_response r = WordPressApiError msg (Some (status r)) code.
Proof.
  intros Hb. unfold error_of_response.
  destruct (body r) as [[]|]; simpl; try congruence; eauto.
Qed.

(** The [catch] block rethrows the error of a response at once exactly
    when its status is below 500 (and not 0). *)
Lemma is_client_error_typed msg st code :
  st <> 0 ->
  is_client_error (WordPressApiError msg (Some st) code) = (st <? 500).
Proof.
  intros Hst. unfold is_client_error. simpl.
  destruct (Z.eqb_spec st 0); [contradiction | reflexivity].
Qed.

Lemma sourced_failure be url o :
  (forall n, failure_reply (be n url)) ->
  sourced be url o ->
  match o with
  | Thrown x => is_client_error x = false
  | Returned r =>
      ok r = false /\ status r <> 0 /\
      exists msg code,
        attempt_result o = Thrown (WordPressApiError msg (Some (status r)) code)
        /\ is_client_error (WordPressApiError msg (Some (status r)) code)
           = (status r <? 500)
  end.
Proof.
  intros Hfail [[i ->]| ->]; [|reflexivity].
  specialize (Hfail i). destruct (be i url) as [lat r|lat msg]; simpl in *; [|reflexivity].
  destruct Hfail as (Hok & Hst & Hb). rewrite Hok.
  destruct (error_of_response_typed r Hb) as (msg & code & ->).
  repeat split; auto. exists msg, code. split; [reflexivity|].
  apply is_client_error_typed; assumption.
Qed.

Lemma backoff_trace_sourced be url attempt start index cs :
  backoff_trace be url attempt start index cs ->
  Forall (fun c => sourced be url (fc_result c)) cs.
Proof.
  revert attempt start index.
  induction cs as [|c rest IH]; intros attempt start index; [constructor|].
  simpl. intros (_ & _ & Hsrc & Hrest). constructor.
  - destruct Hsrc as [H|H]; [left; eauto | right; assumption].
  - destruct rest as [|c2 rest']; [constructor|].
    destruct Hrest as [_ Hrest]. eapply IH, Hrest.
Qed.

Lemma backoff_trace_schedule be url attempt start index cs :
  (forall n, failure_reply (be n url)) ->
  backoff_trace be url attempt start index cs ->
  retry_schedule attempt start cs.
Proof.
  intros Hfail. revert attempt start index.
  induction cs as [|c rest IH]; intros attempt start index; [trivial|].
  intros Htrace. pose proof (backoff_trace_sourced _ _ _ _ _ _ Htrace) as Hsrc.
  simpl in Htrace. destruct Htrace as (_ & Hstart & _ & Hrest).
  simpl. split; [assumption|].
  destruct rest as [|c2 rest']; [exact I|].
  destruct Hrest as [(e & He & Hne) Hrest]. split; [|eapply IH, Hrest].
  inversion Hsrc as [|? ? Hc _]; subst.
  apply (sourced_failure be url _ Hfail) in Hc.
  destruct (fc_result c) as [r|x]; simpl; [|exact I].
  destruct Hc as (_ & _ & msg & code & Hres & Hce).
  rewrite Hres in He. injection He as <-. rewrite Hce in Hne.
  apply Z.ltb_ge in Hne. exact Hne.
Qed.

Lemma Forall_last {A} (P : A -> Prop) (l : list A) (x : A) :
  Forall P l -> last l = Some x -> P x.
Proof.
  intros HP Hl. apply last_Some in Hl. destruct Hl as [l' ->].
  apply Forall_app in HP. destruct HP as [_ HP]. inversion HP; assumption.
Qed.

Section FirstAttempt.
Variable be : Backend.
Variable config : Config.t.
Variable endpoint : string.
Variable options : RequestInit.
Variable cacheTtl : Z.

(** When the first reply arrives before the timer fires and is decisive
    (a 2xx response with a JSON body, or a client error), [request] ends
    after this one invocation of [fetch]. *)
Lemma request_first_reply s :
  let url := request_url config endpoint in
  let reply := be (List.length (calls s)) url in
  let t := clock s + latency_of reply in
  let o := attempt_result (settled_as reply) in
  cache_hit config endpoint options s = None ->
  1 <= Config.retries config ->
  latency_of reply < Config.timeout config ->
  decisive o ->
  request be config endpoint options cacheTtl s
  = (o, mkState t
          (mkFetchCall url (method options) request_headers (clock s) t
                       (settled_as reply) :: calls s)
          (cache_after config (request_cacheKey config endpoint options) options
                       cacheTtl o t (cache s))).
Proof.
  intros url reply t o Hmiss Hretries Hlat Hdec.
  rewrite (request_miss be config endpoint options cacheTtl s Hmiss).
  destruct (Z.to_nat (Config.retries config)) as [|n] eqn:Hn; [lia|].
  simpl. unfold try_block. fold url.
  rewrite fetch_in_time; fold reply; fold t;
    [| split; [reflexivity | simpl; lia]].
  subst o. unfold cache_after, request_headers.
  destruct (settled_as reply) as [r|e]; simpl in *.
  - destruct (ok r); simpl in *.
    + unfold response_json in *. destruct (body r); simpl in *.
      * destruct (cache_in_use config options); reflexivity.
      * discriminate.
    + rewrite Hdec. reflexivity.
  - rewrite Hdec. reflexivity.
Qed.

End FirstAttempt.

(** ** The failure policy *)

(** A list operation ends after one invocation of [fetch], and any
    failure reply makes it throw: it never retries. *)
Lemma run_list_never_retries be config op s :
  network_calls (snd (run_list be config op s)) = S (network_calls s)
  /\ cache (snd (run_list be config op s)) = cache s
  /\ (failure_reply (be (network_calls s) (list_url config op)) ->
      is_thrown (fst (run_list be config op s)) = true).
Proof.
  rewrite run_list_eq. unfold network_calls. simpl.
  split; [reflexivity|]. split; [reflexivity|].
  destruct (be _ _) as [lat r|lat msg]; simpl; [|reflexivity].
  intros (-> & _). reflexivity.
Qed.

(** The run of [request] against a backend whose every reply is a
    failure, read off the log. *)
Lemma request_failure_trace
    (be : Backend) (config : Config.t) (endpoint : string)
    (options : RequestInit) (cacheTtl : Z) (s : State) :
  cache_hit config endpoint options s = None ->
  (forall n, failure_reply (be n (request_url config endpoint))) ->
  exists (e : JsError) (cs : list FetchCall) (s' : State),
    request be config endpoint options cacheTtl s = (Thrown e, s')
    /\ calls s' = (rev cs ++ calls s)%list
    /\ cache s' = cache s
    /\ (List.length cs <= Z.to_nat (Config.retries config))%nat
    /\ retry_schedule 0 (clock s) cs
    /\ match last cs with
       | None => Config.retries config <= 0 /\ e = generic_error
       | Some c =>
           clock s' = fc_settled c
           /\ match fc_result c with
              | Returned r =>
                  (exists msg code, e = WordPressApiError msg (Some (status r)) code)
                  /\ (500 <= status r ->
                      List.length cs = Z.to_nat (Config.retries config))
              | Thrown x =>
                  e = x /\ List.length cs = Z.to_nat (Config.retries config)
              end
       end
    /\ (forall lat r,
          1 <= Config.retries config ->
          be (network_calls s) (request_url config endpoint) = Responds lat r ->
          Z.of_N lat < Config.timeout config ->
          status r < 500 ->
          e = error_of_response r
          /\ network_calls s' = S (network_calls s)
          /\ clock s' = clock s + Z.of_N lat).
Proof.
  intros Hmiss Hfail.
  destruct (request be config endpoint options cacheTtl s) as [o s'] eqn:Hreq.
  pose proof (request_trace be config endpoint options cacheTtl s o s' Hmiss Hreq)
    as (cs & Hcs & Hlen & Htrace & Hlast).
  pose proof (backoff_trace_sourced _ _ _ _ _ _ Htrace) as Hsrc.
  pose proof (backoff_trace_schedule _ _ _ _ _ _ Hfail Htrace) as Hsched.
  assert (Hfirst : forall lat r,
             1 <= Config.retries config ->
             be (network_calls s) (request_url config endpoint) = Responds lat r ->
             Z.of_N lat < Config.timeout config ->
             status r < 500 ->
             o = Thrown (error_of_response r)
             /\ network_calls s' = S (network_calls s)
             /\ clock s' = clock s + Z.of_N lat).
  { intros lat r Hret Hreply Hlat Hst. unfold network_calls in Hreply.
    pose proof (Hfail (List.length (calls s))) as Hf. rewrite Hreply in Hf.
    destruct Hf as (Hok & Hst0 & Hb).
    pose proof (request_first_reply be config endpoint options cacheTtl s Hmiss Hret)
      as Hone.
    rewrite Hreply in Hone. simpl in Hone. rewrite Hok in Hone.
    rewrite Hone in Hreq; [| assumption |].
    - injection Hreq as <- <-. unfold network_calls. simpl. auto.
    - destruct (error_of_response_typed r Hb) as (msg & code & ->).
      unfold decisive.
      rewrite is_client_error_typed by assumption. apply Z.ltb_lt. assumption. }
  destruct (last cs) as [c|] eqn:Hl.
  - destruct Hlast as (Ho & Hclk & Hcache & Hend).
    pose proof (Forall_last _ _ _ Hsrc Hl) as Hc.
    apply (sourced_failure _ _ _ Hfail) in Hc.
    destruct (fc_result c) as [r|x] eqn:Hres.
    + destruct Hc as (Hok & Hst0 & msg & code & Hres' & Hce).
      rewrite Hres' in Ho. subst o.
      exists (WordPressApiError msg (Some (status r)) code), cs, s'.
      split; [reflexivity|]. split; [assumption|]. split; [assumption|].
      split; [assumption|]. split; [assumption|]. rewrite Hl, Hres.
      split.
      * split; [assumption|]. split; [eauto|]. intros Hge.
        destruct Hend as [(d & Hd)|[(e' & He' & Hterm)|Hn]]; [| |assumption].
        -- rewrite Hres' in Hd. discriminate.
        -- rewrite Hres' in He'. injection He' as <-. rewrite Hce in Hterm.
           apply Z.ltb_lt in Hterm. lia.
      * intros lat r' H1 H2 H3 H4.
        destruct (Hfirst lat r' H1 H2 H3 H4) as ([= ->] & ? & ?). auto.
    + simpl in Ho. subst o. exists x, cs, s'.
      split; [reflexivity|]. split; [assumption|]. split; [assumption|].
      split; [assumption|]. split; [assumption|]. rewrite Hl, Hres.
      split.
      * split; [assumption|]. split; [reflexivity|].
        destruct Hend as [(d & Hd)|[(e' & He' & Hterm)|Hn]]; [| |assumption].
        -- discriminate.
        -- simpl in He'. injection He' as <-. congruence.
      * intros lat r' H1 H2 H3 H4.
        destruct (Hfirst lat r' H1 H2 H3 H4) as ([= ->] & ? & ?). auto.
  - destruct Hlast as (Hret & -> & ->).
    exists generic_error, cs, s.
    split; [reflexivity|]. split; [assumption|]. split; [reflexivity|].
    split; [assumption|]. split; [assumption|]. rewrite Hl.
    split; [auto|].
    intros lat r H1. lia.
Qed.

(** C2 (as the code has it).  For a call of [request] (the path of
    [getPost] and [getPage]) that finds no fresh cache entry, against a
    backend whose every reply is a failure: the call throws, the cache is
    left alone, and the log shows the policy.  Every attempt but the last
    was a rejected [fetch] or a response with status 500 or more, and was
    followed by a wait of [2^attempt] seconds.  The last attempt either
    received a response with status below 500, whose typed error is thrown
    at once, or it was attempt number [retries], and the error thrown is
    the one of this last attempt.  Without any attempt ([retries <= 0])
    the generic error is thrown.  In particular a first reply with status
    below 500 that arrives before the timeout ends the call after one
    invocation of [fetch] and no wait.  The list operations do not go
    through [request]: they end after one invocation whatever the status. *)
Theorem request_failure_policy
    (be : Backend) (config : Config.t) (endpoint : string)
    (options : RequestInit) (cacheTtl : Z) (s : State) :
  cache_hit config endpoint options s = None ->
  (forall n, failure_reply (be n (request_url config endpoint))) ->
  exists (e : JsError) (cs : list FetchCall) (s' : State),
    request be config endpoint options cacheTtl s = (Thrown e, s')
    /\ calls s' = (rev cs ++ calls s)%list
    /\ cache s' = cache s
    /\ (List.length cs <= Z.to_nat (Config.retries config))%nat
    /\ retry_schedule 0 (clock s) cs
    /\ match last cs with
       | None => Config.retries config <= 0 /\ e = generic_error
       | Some c =>
           clock s' = fc_settled c
           /\ match fc_result c with
              | Returned r =>
                  (exists msg code, e = WordPressApiError msg (Some (status r)) code)
                  /\ (500 <= status r ->
                      List.length cs = Z.to_nat (Config.retries config))
              | Thrown x =>
                  e = x /\ List.length cs = Z.to_nat (Config.retries config)
              end
       end
    /\ (forall lat r,
          1 <= Config.retries config ->
          be (network_calls s) (request_url config endpoint) = Responds lat r ->
          Z.of_N lat < Config.timeout config ->
          status r < 500 ->
          e = error_of_response r
          /\ network_calls s' = S (network_calls s)
          /\ clock s' = clock s + Z.of_N lat)
    /\ (forall op,
          network_calls (snd (run_list be config op s)) = S (network_calls s)).
Proof.
  intros Hmiss Hfail.
  destruct (request_failure_trace be config endpoint options cacheTtl s Hmiss Hfail)
    as (e & cs & s' & H1 & H2 & H3 & H4 & H5 & H6 & H7).
  exists e, cs, s'. repeat (split; [assumption|]).
  intros op. apply run_list_never_retries.
Qed.

Lemma request_failure_policy_witness :
  cache_hit demo_config "/posts/7" no_options (initial 0) = None
  /\ (forall n, failure_reply (always server_error n (request_url demo_config "/posts/7")))
  /\ exists e s',
      request (always server_error) demo_config "/posts/7" no_options default_cacheTtl
              (initial 0) = (Thrown e, s').
Proof.
  assert (Hmiss : cache_hit demo_config "/posts/7" no_options (initial 0) = None)
    by reflexivity.
  assert (Hfail : forall n,
             failure_reply (always server_error n (request_url demo_config "/posts/7")))
    by (intros n; simpl; repeat split; discriminate).
  split; [exact Hmiss|]. split; [exact Hfail|].
  destruct (request_failure_policy (always server_error) demo_config "/posts/7"
              no_options default_cacheTtl (initial 0) Hmiss Hfail)
    as (e & cs & s' & Hreq & _).
  exists e, s'. exact Hreq.
Defined.

(** A backend that answers 500 to every attempt: [retries] invocations, one
    and two seconds apart, then the error of the last one. *)
Example request_server_error_exhausts_retries :
  let run := request (always server_error) demo_config "/posts/7" no_options
                     default_cacheTtl (initial 0) in
  fst run = Thrown (WordPressApiError "HTTP 500: Internal Server Error" (Some 500) None)
  /\ network_calls (snd run) = 3%nat
  /\ map (fun c => (fc_started c, fc_settled c)) (rev (calls (snd run)))
     = [(0, 10); (1010, 1020); (3020, 3030)].
Proof. repeat split. Qed.

(** A backend that answers 404: one invocation, no wait, and the error
    carries the backend's message and code. *)
Example request_not_found_is_terminal :
  let run := request (always not_found) demo_config "/posts/7" no_options
                     default_cacheTtl (initial 0) in
  fst run = Thrown (WordPressApiError "Invalid post ID." (Some 404)
                                      (Some (JStr "rest_post_invalid_id")))
  /\ network_calls (snd run) = 1%nat
  /\ clock (snd run) = 10.
Proof. repeat split. Qed.

(** With [retries = 0] there is no attempt and no recorded error. *)
Example request_without_attempts :
  request (always server_error) (Config.mk "http://wp" 10000 true 0) "/posts/7"
          no_options default_cacheTtl (initial 0)
  = (Thrown (WordPressApiError "Request failed after retries" None None), initial 0).
Proof. reflexivity. Qed.

(** A 404 whose body is the JSON literal [null] is not recognised as a
    client error: reading [errorData.message] throws a [TypeError], which
    is retried like a network failure. *)
Example request_null_error_body_is_retried :
  let run := request (always (mkResponse 404 "Not Found" [] (Some JNull))) demo_config
                     "/posts/7" no_options default_cacheTtl (initial 0) in
  fst run = Thrown (TypeError "Cannot read properties of null (reading 'message')")
  /\ network_calls (snd run) = 3%nat.
Proof. repeat split. Qed.

(** C2, counterexample.  [getPosts] is a request issued through the client,
    and a 500 from the backend is not retried: with [retries = 3] the call
    throws after one invocation of [fetch] and no wait. *)
Lemma getPosts_server_error_not_retried :
  let run := getPosts (always server_error) demo_config PostsParams.empty (initial 0) in
  Config.retries demo_config = 3
  /\ fst run = Thrown (WordPressApiError "Failed to fetch posts: Internal Server Error"
                                         (Some 500) None)
  /\ network_calls (snd run) = 1%nat
  /\ clock (snd run) = 10.
Proof. repeat split. Qed.

(** ** The cache *)


Section Cache.
Variable be : Backend.
Variable config : Config.t.
Variable endpoint : string.
Variable options : RequestInit.
Variable cacheTtl : Z.

Let cacheKey := request_cacheKey config endpoint options.

(** A call that finds no fresh entry and may attempt at all does invoke
    [fetch]; its outcome is that of its last attempt, and the cache
    changes only when that attempt succeeded. *)
Lemma request_fetched s o s' :
  cache_hit config endpoint options s = None ->
  1 <= Config.retries config ->
  request be config endpoint options cacheTtl s = (o, s') ->
  (network_calls s < network_calls s')%nat
  /\ cache s' = cache_after config cacheKey options cacheTtl o (clock s') (cache s)
  /\ exists c rest,
      calls s' = c :: rest
      /\ o = attempt_result (fc_result c)
      /\ clock s' = fc_settled c.
Proof.
  intros Hmiss Hret Hreq.
  apply request_trace in Hreq; [|assumption].
  destruct Hreq as (cs & Hcs & _ & _ & Hlast).
  destruct (last cs) as [c|] eqn:Hl; [|lia].
  destruct Hlast as (Ho & Hclk & Hcache & _).
  apply last_Some in Hl. destruct Hl as [cs' ->].
  rewrite rev_app_distr in Hcs. simpl in Hcs.
  unfold network_calls. rewrite Hcs. simpl.
  split; [rewrite length_app; lia|]. split; [assumption|]. eauto.
Qed.



End Cache.

(** After [clearCache] a call finds no entry, fresh or not, and fetches. *)
Lemma clearCache_forces_fetch be config endpoint options cacheTtl s o s' :
  1 <= Config.retries config ->
  request be config endpoint options cacheTtl (snd (clearCache s)) = (o, s') ->
  (network_calls s < network_calls s')%nat.
Proof.
  intros Hret Hreq.
  assert (Hmiss : cache_hit config endpoint options (snd (clearCache s)) = None).
  { unfold cache_hit, cache_lookup. simpl. rewrite lookup_empty.
    destruct (cache_in_use config options); reflexivity. }
  destruct (request_fetched be config endpoint options cacheTtl _ o s' Hmiss Hret Hreq)
    as (Hlt & _).
  exact Hlt.
Qed.

(** C5.  When the cache is in use and holds an entry under the key of a
    call, the call returns the entry's data without any invocation of
    [fetch] exactly while [now - timestamp < ttl].  Once the TTL has
    elapsed the call does invoke [fetch], although the key is the same;
    if it then returns data, the entry under the key is overwritten with
    these data, stamped with the current time, and if it throws the stale
    entry stays as it was. *)
Theorem cached_entry_reused_only_while_fresh
    (be : Backend) (config : Config.t) (endpoint : string)
    (options : RequestInit) (cacheTtl : Z) (s s' : State)
    (entry : CacheEntry) (o : Outcome Json) :
  cache_in_use config options = true ->
  cache s !! request_cacheKey config endpoint options = Some entry ->
  1 <= Config.retries config ->
  request be config endpoint options cacheTtl s = (o, s') ->
  if clock s - timestamp entry <? ttl entry
  then o = Returned (data entry) /\ s' = s
  else (network_calls s < network_calls s')%nat
       /\ match o with
          | Returned d =>
              cache s'
              = <[request_cacheKey config endpoint options
                  := mkCacheEntry d (clock s') cacheTtl]> (cache s)
              /\ cache s' !! request_cacheKey config endpoint options
                 = Some (mkCacheEntry d (clock s') cacheTtl)
          | Thrown _ => cache s' = cache s
          end.
Proof.
  intros Huse Hentry Hret Hreq.
  assert (Hhit : cache_hit config endpoint options s
                 = if clock s - timestamp entry <? ttl entry
                   then Some (data entry) else None).
  { unfold cache_hit, cache_lookup. rewrite Huse, Hentry. reflexivity. }
  destruct (clock s - timestamp entry <? ttl entry).
  - rewrite (request_hit be config endpoint options cacheTtl s _ Hhit) in Hreq.
    injection Hreq as <- <-. auto.
  - destruct (request_fetched be config endpoint options cacheTtl s o s' Hhit Hret Hreq)
      as (Hlt & Hcache & _).
    split; [assumption|]. unfold cache_after in Hcache.
    destruct o as [d|e]; [|assumption].
    rewrite Huse in Hcache. split; [assumption|].
    rewrite Hcache. apply lookup_insert_eq.
Qed.

Lemma cached_entry_witness :
  let run := request (always (ok_response (JStr "new"))) demo_config "/posts/7"
                     no_options default_cacheTtl stale_state in
  cache_in_use demo_config no_options = true
  /\ cache stale_state !! request_cacheKey demo_config "/posts/7" no_options
     = Some old_entry
  /\ 1 <= Config.retries demo_config
  /\ (network_calls stale_state < network_calls (snd run))%nat.
Proof.
  intros run.
  assert (H1 : cache_in_use demo_config no_options = true) by reflexivity.
  assert (H2 : cache stale_state !! request_cacheKey demo_config "/posts/7" no_options
               = Some old_entry) by reflexivity.
  assert (H3 : 1 <= Config.retries demo_config) by (simpl; lia).
  assert (H4 : request (always (ok_response (JStr "new"))) demo_config "/posts/7"
                       no_options default_cacheTtl stale_state = (fst run, snd run))
    by reflexivity.
  pose proof (cached_entry_reused_only_while_fresh _ _ _ _ _ _ _ _ _ H1 H2 H3 H4) as H.
  assert (Hstale : (clock stale_state - timestamp old_entry <? ttl old_entry) = false)
    by reflexivity.
  rewrite Hstale in H. destruct H as [Hlt _].
  repeat split; assumption.
Defined.

(** After the TTL the same call fetches again and overwrites the entry. *)
Example request_refetches_after_ttl :
  let be := always (ok_response (JStr "new")) in
  let s1 := snd (request be demo_config "/posts/7" no_options default_cacheTtl (initial 0)) in
  let s2 := snd (request be demo_config "/posts/7" no_options default_cacheTtl
                         (advance 299999 s1)) in
  let s3 := snd (request be demo_config "/posts/7" no_options default_cacheTtl
                         (advance 300000 s1)) in
  network_calls s1 = 1%nat /\ network_calls s2 = 1%nat /\ network_calls s3 = 2%nat
  /\ cache s3 !! request_cacheKey demo_config "/posts/7" no_options
     = Some (mkCacheEntry (JStr "new") 300020 default_cacheTtl).
Proof. repeat split. Qed.




(** ** getPost and getPage *)

Lemma item_endpoint_slug kind slug :
  item_endpoint kind (IdString slug) = collection_endpoint kind slug.
Proof. destruct kind; reflexivity. Qed.

Lemma getItem_eq be config kind identifier :
  getItem be config kind identifier
  = (result <- request be config (item_endpoint kind identifier) no_options
                       default_cacheTtl ;;
     first_or_404 (item_name kind) result).
Proof. destruct kind; reflexivity. Qed.

(** Whatever way the collection comes back from [request], from the
    backend or from the cache: empty gives the 404 error, non-empty its
    first record. *)
Lemma getItem_of_collection be config kind slug s s' items :
  request be config (collection_endpoint kind slug) no_options default_cacheTtl s
  = (Returned (JArr items), s') ->
  getItem be config kind (IdString slug) s
  = (match items with
     | [] => Thrown (WordPressApiError (item_name kind +:+ " not found") (Some 404) None)
     | first :: _ => Returned first
     end, s').
Proof.
  intros Hreq. rewrite getItem_eq, item_endpoint_slug. unfold bind. rewrite Hreq.
  destruct items; reflexivity.
Qed.

(** C4.  For a slug, [getPost] (and [getPage] likewise) fetches the
    collection endpoint [/posts?slug=...].  When the backend answers with a
    2xx response whose body is a collection, an empty collection makes the
    call throw the typed error with status 404, and a non-empty one makes
    it return the first record as it is. *)
Theorem getPost_slug_first_or_404
    (be : Backend) (config : Config.t) (kind : ItemKind) (slug : string)
    (s : State) (lat : N) (r : Response) (items : list Json) :
  cache_hit config (collection_endpoint kind slug) no_options s = None ->
  1 <= Config.retries config ->
  be (network_calls s)
     (Config.baseUrl config +:+ "/wp-json/wp/v2" +:+ collection_endpoint kind slug)
  = Responds lat r ->
  Z.of_N lat < Config.timeout config ->
  ok r = true ->
  body r = Some (JArr items) ->
  exists c s',
    getItem be config kind (IdString slug) s
    = (match items with
       | [] => Thrown (WordPressApiError (item_name kind +:+ " not found") (Some 404) None)
       | first :: _ => Returned first
       end, s')
    /\ calls s' = c :: calls s
    /\ fc_url c
       = Config.baseUrl config +:+ "/wp-json/wp/v2" +:+ collection_endpoint kind slug
    /\ fc_result c = Returned r.
Proof.
  intros Hmiss Hret Hreply Hlat Hok Hb.
  pose proof (request_first_reply be config (collection_endpoint kind slug) no_options
                default_cacheTtl s Hmiss Hret) as Hfirst.
  unfold network_calls in Hreply. unfold request_url, api_root in Hfirst.
  simpl in Hfirst. rewrite Hreply in Hfirst. simpl in Hfirst.
  rewrite Hok in Hfirst. unfold response_json in Hfirst. rewrite Hb in Hfirst.
  specialize (Hfirst Hlat I).
  eexists _, _. split; [apply getItem_of_collection; exact Hfirst|].
  simpl. repeat split; reflexivity.
Qed.

Lemma getPost_slug_witness :
  let be := always (ok_response (JArr [])) in
  cache_hit demo_config (collection_endpoint PostItem "no-such-post") no_options
            (initial 0) = None
  /\ 1 <= Config.retries demo_config
  /\ ok (ok_response (JArr [])) = true
  /\ exists s',
      getPost be demo_config (IdString "no-such-post") (initial 0)
      = (Thrown (WordPressApiError "Post not found" (Some 404) None), s').
Proof.
  intros be.
  assert (H1 : cache_hit demo_config (collection_endpoint PostItem "no-such-post")
                         no_options (initial 0) = None) by reflexivity.
  assert (H2 : 1 <= Config.retries demo_config) by (simpl; lia).
  assert (H3 : be (network_calls (initial 0))
                  (Config.baseUrl demo_config +:+ "/wp-json/wp/v2"
                     +:+ collection_endpoint PostItem "no-such-post")
               = Responds 10 (ok_response (JArr []))) by reflexivity.
  assert (H4 : Z.of_N 10 < Config.timeout demo_config) by (simpl; lia).
  assert (H5 : ok (ok_response (JArr [])) = true) by reflexivity.
  assert (H6 : body (ok_response (JArr [])) = Some (JArr [])) by reflexivity.
  destruct (getPost_slug_first_or_404 be demo_config PostItem "no-such-post" (initial 0)
              10%N (ok_response (JArr [])) [] H1 H2 H3 H4 H5 H6)
    as (c & s' & Hget & _).
  repeat split; try assumption. exists s'. exact Hget.
Defined.

Example getPost_slug_takes_first :
  fst (getPost (always (ok_response three_posts)) demo_config (IdString "hello-world")
               (initial 0))
  = Returned (JObj [("id", JNum 1)]).
Proof. reflexivity. Qed.

(** ** Failures of the public operations *)



(** The failures of [getPost] by kind, with [timeout = 10000] and
    [retries = 3]: a 404 is the typed error at once; a 404 whose body is
    [null] is a [TypeError] after three invocations of [fetch]; a refused
    connection is the [TypeError] of [fetch]; and a 2xx reply that takes
    twenty seconds is the [AbortError] of the timer. *)
Example getPost_failures_by_kind :
  let outcome be := fst (run be demo_config (OpItem PostItem (IdNumber 7)) (initial 0)) in
  let fetches be :=
    network_calls (snd (run be demo_config (OpItem PostItem (IdNumber 7)) (initial 0))) in
  outcome (always not_found)
  = Thrown (WordPressApiError "Invalid post ID." (Some 404)
                              (Some (JStr "rest_post_invalid_id")))
  /\ fetches (always not_found) = 1%nat
  /\ outcome (always not_found_null)
     = Thrown (TypeError "Cannot read properties of null (reading 'message')")
  /\ fetches (always not_found_null) = 3%nat
  /\ outcome unreachable = Thrown (TypeError "fetch failed")
  /\ outcome always_slow = Thrown AbortError.
Proof. repeat split. Qed.


(** ** The abort timer of request *)

(** C3, the code at three inputs: [getPost(7)] with [timeout = 10000] and
    [retries = 3].  The claim is that every attempt is bounded by the
    timeout through an abort of its own, and that the timeout does not
    span the whole loop.  In the code the abort timer is armed once, before
    the loop, and cleared when the first response arrives.  (1) After a 500 that arrived in 10 ms, the
    second attempt is not bounded at all: it runs for a minute and its
    reply is returned.  (2) After two refused connections the timer is
    still the one armed at the start: the third attempt is aborted at time
    10000, 6990 ms after it began.  (3) When the first attempt is aborted
    by the timer, the attempts that follow are rejected at once, since the
    signal stays aborted; all three count toward [retries]. *)
Theorem request_timer_armed_once :
  let run1 := getPost slow_after_error demo_config (IdNumber 7) (initial 0) in
  let run2 := getPost slow_after_refusals demo_config (IdNumber 7) (initial 0) in
  let run3 := getPost always_slow demo_config (IdNumber 7) (initial 0) in
  Config.timeout demo_config = 10000
  /\ Config.retries demo_config = 3
  /\ (fst run1 = Returned (JStr "late")
      /\ timeline (snd run1) = [(0, 10); (1010, 61010)]
      /\ durations (snd run1) = [10; 60000])
  /\ (fst run2 = Thrown AbortError
      /\ timeline (snd run2) = [(0, 5); (1005, 1010); (3010, 10000)]
      /\ durations (snd run2) = [5; 5; 6990])
  /\ (fst run3 = Thrown AbortError
      /\ timeline (snd run3) = [(0, 10000); (11000, 11000); (13000, 13000)]
      /\ network_calls (snd run3) = 3%nat).
Proof. repeat split. Qed.
